(** * moacrpc: a shallow embedding of the MOAC Chain3 JSON-RPC client

    The Go package [moacrpc] is a thin client: one dispatcher ([Call]) that
    performs a single JSON-RPC exchange over an injected transport, and a
    flat family of typed accessors built on it.

    Conventions of the embedding
    - Go [string] and [[]byte] are byte sequences: [String.string].
    - Go [int] is the 64-bit native integer, [big.Int] is unbounded: both [Z].
    - a Go pointer or slice that may be [nil] is an [option].
    - Go's [error] interface is the type [error]; a nil error is [None].
    - the standard library ([encoding/json], [net/http], [io/ioutil]) and the
      injected collaborators are parameters of the development. *)

From Stdlib Require Import ZArith List String Ascii Bool Lia.
From Stdlib Require Import DecimalString DecimalPos DecimalZ.
Import ListNotations.

#[local] Open Scope string_scope.
#[local] Open Scope Z_scope.

(** ** Errors *)

(** [MoacError] (moacrpc.go): the error object of a JSON-RPC response. *)
Record MoacError : Type := mkMoacError {
  Code : Z;
  Message : string
}.

(** Go's [error] interface.  [MoacError] implements it by value; every other
    error the client hands back comes from a library (transport, encoder,
    decoder, number parser) and is kept opaque as its message. *)
Inductive error : Type :=
| RpcError (e : MoacError)
| LibError (msg : string).

(** ** Numeric codec *)

Module Hex.

Definition max_int : Z := 2 ^ 63 - 1.

(** Lowercase hexadecimal digit of a value in [0, 16). *)
Definition digit (d : Z) : ascii :=
  match d with
  | 0 => "0" | 1 => "1" | 2 => "2" | 3 => "3"
  | 4 => "4" | 5 => "5" | 6 => "6" | 7 => "7"
  | 8 => "8" | 9 => "9" | 10 => "a" | 11 => "b"
  | 12 => "c" | 13 => "d" | 14 => "e" | _ => "f"
  end%char.

(** Value of a hexadecimal digit, either case. *)
Definition digit_value (c : ascii) : option Z :=
  let n := Z.of_nat (nat_of_ascii c) in
  if (48 <=? n) && (n <=? 57) then Some (n - 48)
  else if (97 <=? n) && (n <=? 102) then Some (n - 87)
  else if (65 <=? n) && (n <=? 70) then Some (n - 55)
  else None.

(** Most significant digit first; [fuel] bounds the number of digits. *)
Fixpoint digits (fuel : nat) (n : Z) : string :=
  match fuel with
  | O => String (digit (n mod 16)) EmptyString
  | S fuel' =>
      if n <? 16 then String (digit n) EmptyString
      else digits fuel' (n / 16) ++ String (digit (n mod 16)) EmptyString
  end.

(** Left-to-right accumulation of a digit string. *)
Fixpoint value (s : string) (acc : Z) : option Z :=
  match s with
  | EmptyString => Some acc
  | String c rest =>
      match digit_value c with
      | Some d => value rest (16 * acc + d)
      | None => None
      end
  end.

(** Two digits per byte, as [fmt]'s [%x] prints a byte slice. *)
Fixpoint of_bytes (data : string) : string :=
  match data with
  | EmptyString => EmptyString
  | String c rest =>
      let n := Z.of_nat (nat_of_ascii c) in
      String (digit (n / 16)) (String (digit (n mod 16)) (of_bytes rest))
  end.

End Hex.

(** Modelled from the spec: [IntToHex] of helpers.go, whose source is missing.
    [IntToHex(n)] "encodes a non-negative integer as a 0x-prefixed lowercase
    hex string.  No sign handling".  A negative argument is outside the
    contract; the model encodes it like zero. *)
Definition IntToHex (i : Z) : string :=
  "0x" ++ Hex.digits (Z.to_nat (Z.log2 (Z.max i 0))) (Z.max i 0).

(** Modelled from the spec: what the two parsers of helpers.go share, the
    value of the digits that follow the [0x] prefix, and nothing when the
    prefix or the digits are missing or a character is not a hex digit. *)
Definition hex_payload (value : string) : option Z :=
  match value with
  | String "0" (String "x" (String c rest)) => Hex.value (String c rest) 0
  | _ => None
  end.

(** Modelled from the spec: [ParseInt] of helpers.go, whose source is missing.
    [ParseInt(hex)] "decodes a 0x-prefixed hex string to a native integer;
    fails with a DecodeError if the string is malformed or overflows the
    native integer width", and a failure "never returns a truncated/garbage
    number": the integer is then 0. *)
Definition ParseInt (value : string) : Z * option error :=
  match hex_payload value with
  | Some n =>
      if n <=? Hex.max_int then (n, None)
      else (0, Some (LibError "value out of range"))
  | None => (0, Some (LibError "invalid syntax"))
  end.

(** Modelled from the spec: [ParseBigInt] of helpers.go, whose source is
    missing.  [ParseBigInt(hex)]: "as above but decodes into an
    arbitrary-precision integer ... Must not silently truncate". *)
Definition ParseBigInt (value : string) : Z * option error :=
  match hex_payload value with
  | Some n => (n, None)
  | None => (0, Some (LibError "invalid syntax"))
  end.

(** [Moac1] (moacrpc.go): [big.NewInt(1000000000000000000)]. *)
Definition Moac1 : Z := 1000000000000000000.

(** ** Effects

    A call talks to two collaborators, the transport and the logger, and it
    can panic on a nil dereference.  A computation is the trace of what it
    did to the collaborators together with its result, [None] after a
    panic. *)

Inductive event : Type :=
| EvPost (url contentType body : string)   (* client.Post(url, contentType, body) *)
| EvReadAll                                (* ioutil.ReadAll(response.Body) *)
| EvClose                                  (* response.Body.Close() *)
| EvPrintln (line : string).               (* log.Println(line) *)

Definition M (A : Type) : Type := (list event * option A)%type.

Definition ret {A} (a : A) : M A := ([], Some a).

Definition bind {A B} (m : M A) (f : A -> M B) : M B :=
  match m with
  | (t, None) => (t, None)
  | (t, Some a) => let '(t', r) := f a in ((t ++ t')%list, r)
  end.

Definition emit (e : event) : M unit := ([e], Some tt).

Definition panic {A} : M A := ([], None).

(** [defer]: the event happens when the function leaves, however it does. *)
Definition defer {A} (e : option event) (m : M A) : M A :=
  match e with
  | Some ev => ((fst m ++ [ev])%list, snd m)
  | None => m
  end.

Definition trace {A} (m : M A) : list event := fst m.
Definition outcome {A} (m : M A) : option A := snd m.

Declare Scope go_scope.
Delimit Scope go_scope with go.
Notation "x <- m ;; k" := (bind m (fun x => k))
  (at level 61, m at next level, right associativity) : go_scope.
Notation "' p <- m ;; k" := (bind m (fun x => match x with p => k end))
  (at level 61, p pattern, m at next level, right associativity) : go_scope.
Notation "m ;;; k" := (bind m (fun _ => k))
  (at level 61, right associativity) : go_scope.
#[local] Open Scope go_scope.

(** The lines handed to the logger, in order. *)
Fixpoint printed (t : list event) : list string :=
  match t with
  | [] => []
  | EvPrintln line :: t' => line :: printed t'
  | _ :: t' => printed t'
  end.

(** ** Collaborators *)

(** What reading an [http.Response] body to its end yields.  A response
    always carries a body, as [net/http] promises for a non-nil response; a
    response whose [Body] is nil is not represented. *)
Record http_Response : Type := mkResponse {
  Body : string * option error
}.

(** [httpClient] (options.go): [Post] answers with a response pointer and an
    error, either of which may be nil. *)
Record httpClient : Type := mkClient {
  Post : string -> string -> string -> option http_Response * option error
}.

(** [MoacRPC] (moacrpc.go).  The [log] field has no counterpart: whichever
    logger is installed, by [New] or by [WithLogger], a call of its
    [Println] is the event [EvPrintln].  A client whose transport or logger
    is nil is not represented. *)
Record MoacRPC : Type := mkMoacRPC {
  url : string;
  client : httpClient;
  Debug : bool
}.

(** Options (options.go). *)
Definition WithHttpClient (c : httpClient) (rpc : MoacRPC) : MoacRPC :=
  mkMoacRPC (url rpc) c (Debug rpc).

Definition WithDebug (enabled : bool) (rpc : MoacRPC) : MoacRPC :=
  mkMoacRPC (url rpc) (client rpc) enabled.

(** [New] applies the options in order to a client with the default
    transport, here [default_client]. *)
Definition New (default_client : httpClient) (u : string)
    (options : list (MoacRPC -> MoacRPC)) : MoacRPC :=
  fold_left (fun rpc option => option rpc) options
            (mkMoacRPC u default_client false).

Definition NewMoacRPC (default_client : httpClient) (u : string)
    (options : list (MoacRPC -> MoacRPC)) : MoacRPC :=
  New default_client u options.

(** ** Go values *)

(** The zero value of a type, what [var x A] and [new(A)] start from. *)
Class Zero (A : Type) : Type := zero : A.

#[export] Instance Zero_string : Zero string := EmptyString.
#[export] Instance Zero_bool : Zero bool := false.

(** [json.Unmarshal(data, &target)]: the target after the call, and the
    error.  The decoder may have written into the target before it fails. *)
Class Unmarshaler (A : Type) : Type :=
  json_Unmarshal : string -> A -> A * option error.

(** [json.Marshal(v)]: the encoding, and the error. *)
Class Marshaler (A : Type) : Type :=
  json_Marshal : A -> string * option error.

(** [json.RawMessage]: a byte slice, possibly nil. *)
Definition RawMessage : Type := option string.

Definition bytes_of (m : RawMessage) : string :=
  match m with Some s => s | None => EmptyString end.

(** [bytes.Equal]: a nil slice equals an empty one. *)
Definition bytes_Equal (a b : RawMessage) : bool :=
  String.eqb (bytes_of a) (bytes_of b).

(** [ethResponse] (moacrpc.go). *)
Record ethResponse : Type := mkResp {
  resp_ID : Z;
  resp_JSONRPC : string;
  Result : RawMessage;
  Error : option MoacError
}.

#[export] Instance Zero_ethResponse : Zero ethResponse :=
  mkResp 0 EmptyString None None.

(** Modelled from the spec: the [Syncing] record of types.go, whose source is
    missing.  The sync status is "a single type with a boolean discriminant
    plus the three numeric fields (zero-valued when not syncing)". *)
Record Syncing : Type := mkSyncing {
  IsSyncing : bool;
  StartingBlock : Z;
  CurrentBlock : Z;
  HighestBlock : Z
}.

#[export] Instance Zero_Syncing : Zero Syncing := mkSyncing false 0 0 0.

(** Line feed, Go's ["\n"]. *)
Definition LF : string := String (ascii_of_nat 10) EmptyString.

(** [fmt.Sprintf("%s\nRequest: %s\nResponse: %s\n", method, body, data)]. *)
Definition debug_line (method body data : string) : string :=
  method ++ LF ++ "Request: " ++ body ++ LF ++ "Response: " ++ data ++ LF.

Definition client_Post (c : httpClient) (u contentType body : string)
  : M (option http_Response * option error) :=
  emit (EvPost u contentType body) ;;; ret (Post c u contentType body).

(** [ioutil.ReadAll(response.Body)]: selecting [Body] through a nil
    response is a nil dereference. *)
Definition ioutil_ReadAll (response : option http_Response)
  : M (string * option error) :=
  match response with
  | None => panic
  | Some r => emit EvReadAll ;;; ret (Body r)
  end.

Definition log_Println (line : string) : M unit := emit (EvPrintln line).

(** [proxyBlock] (types.go): the interface of a decoded block shape, whose
    one method turns it into a [Block]. *)
Class ProxyBlock (Block P : Type) : Type :=
  toBlock : P -> Block.

Section Client.

(** The types declared in types.go, whose source is missing, are parameters:
    the transaction object [T], [FilterParams], and the decoded entities
    with their zero values, their decoders and [toBlock]. *)
Context {T FilterParams Block Transaction TransactionReceipt Log : Type}.
Context {proxyBlockWithTransactions proxyBlockWithoutTransactions : Type}.
(** Any other Go value a caller may pass as a parameter. *)
Context {GoValue : Type}.

(** [interface{}], as far as parameters go. *)
Inductive iface : Type :=
| IString (s : string)
| IBool (b : bool)
| ITransaction (t : T)
| IFilterParams (p : FilterParams)
| IValue (v : GoValue).

(** [ethRequest] (moacrpc.go). *)
Record ethRequest : Type := mkReq {
  ID : Z;
  JSONRPC : string;
  Method : string;
  Params : list iface
}.

Context {M_request : Marshaler ethRequest}.
Context {U_response : Unmarshaler ethResponse}.
Context {U_string : Unmarshaler string}.
Context {U_bool : Unmarshaler bool}.
Context {U_strings : Unmarshaler (option (list string))}.
Context {U_logs : Unmarshaler (option (list Log))}.
Context {U_syncing : Unmarshaler Syncing}.
Context {U_transaction : Unmarshaler Transaction}.
Context {U_receipt : Unmarshaler TransactionReceipt}.
Context {U_blockWith : Unmarshaler proxyBlockWithTransactions}.
Context {U_blockWithout : Unmarshaler proxyBlockWithoutTransactions}.
Context {Z_transaction : Zero Transaction}.
Context {Z_receipt : Zero TransactionReceipt}.
Context {Z_blockWith : Zero proxyBlockWithTransactions}.
Context {Z_blockWithout : Zero proxyBlockWithoutTransactions}.

Context {P_blockWith : ProxyBlock Block proxyBlockWithTransactions}.
Context {P_blockWithout : ProxyBlock Block proxyBlockWithoutTransactions}.

(** A value of interface type [proxyBlock]: a pointer to one of the two
    block shapes. *)
Definition proxyBlock : Type :=
  (proxyBlockWithTransactions + proxyBlockWithoutTransactions)%type.

#[local] Instance P_proxyBlock : ProxyBlock Block proxyBlock :=
  fun p =>
    match p with
    | inl b => toBlock b
    | inr b => toBlock b
    end.

(** [json.Unmarshal] decodes into the dynamic type behind the interface. *)
#[local] Instance U_proxyBlock : Unmarshaler proxyBlock :=
  fun data p =>
    match p with
    | inl b => let '(b', err) := json_Unmarshal data b in (inl b', err)
    | inr b => let '(b', err) := json_Unmarshal data b in (inr b', err)
    end.

(** *** The dispatcher *)

(** [Call] (moacrpc.go). *)
Definition Call (rpc : MoacRPC) (method : string) (params : list iface)
  : M (RawMessage * option error) :=
  let request :=
    {| ID := 1; JSONRPC := "2.0"; Method := method; Params := params |} in
  let '(body, err) := json_Marshal request in
  match err with
  | Some e => ret (None, Some e)
  | None =>
    '(response, err) <-
      client_Post (client rpc) (url rpc) "application/json" body ;;
    defer (match response with Some _ => Some EvClose | None => None end)
      (match err with
       | Some e => ret (None, Some e)
       | None =>
         '(data, err) <- ioutil_ReadAll response ;;
         match err with
         | Some e => ret (None, Some e)
         | None =>
           (if Debug rpc
            then log_Println (debug_line method body data)
            else ret tt) ;;;
           let '(resp, err) := json_Unmarshal data (zero : ethResponse) in
           match err with
           | Some e => ret (None, Some e)
           | None =>
             match Error resp with
             | Some e => ret (None, Some (RpcError e))
             | None => ret (Result resp, None)
             end
           end
         end
       end)
  end.

(** [RawCall] (moacrpc.go). *)
Definition RawCall (rpc : MoacRPC) (method : string) (params : list iface)
  : M (RawMessage * option error) :=
  Call rpc method params.

(** [call] (moacrpc.go).  The target is a pointer: [None] is the nil
    target, [Some v] points at a variable that holds [v].  The Go function
    returns the error only and writes through the pointer; here the
    pointer comes back with what it points at after the call. *)
Definition call {A} `{Unmarshaler A} (rpc : MoacRPC) (method : string)
    (target : option A) (params : list iface) : M (option A * option error) :=
  '(result, err) <- Call rpc method params ;;
  match err with
  | Some e => ret (target, Some e)
  | None =>
    match target with
    | None => ret (None, None)
    | Some v =>
      let '(v', err) := json_Unmarshal (bytes_of result) v in
      ret (Some v', err)
    end
  end.

(** [rpc.call(method, &x, params...)]: the variable [x] after the call. *)
Definition call_into {A} `{Unmarshaler A} (rpc : MoacRPC) (method : string)
    (x : A) (params : list iface) : M (A * option error) :=
  '(p, err) <- call rpc method (Some x) params ;;
  ret (match p with Some x' => x' | None => x end, err).


(** *** Typed accessors (moacrpc.go) *)

Definition Chain3ClientVersion (rpc : MoacRPC) : M (string * option error) :=
  '(clientVersion, err) <-
    call_into rpc "chain3_clientVersion" (zero : string) [] ;;
  ret (clientVersion, err).

Definition Chain3Sha3 (rpc : MoacRPC) (data : string)
  : M (string * option error) :=
  '(hash, err) <-
    call_into rpc "chain3_sha3" (zero : string)
              [IString ("0x" ++ Hex.of_bytes data)] ;;
  ret (hash, err).

Definition NetVersion (rpc : MoacRPC) : M (string * option error) :=
  '(version, err) <- call_into rpc "net_version" (zero : string) [] ;;
  ret (version, err).

Definition NetListening (rpc : MoacRPC) : M (bool * option error) :=
  '(listening, err) <- call_into rpc "net_listening" (zero : bool) [] ;;
  ret (listening, err).

Definition NetPeerCount (rpc : MoacRPC) : M (Z * option error) :=
  '(response, err) <- call_into rpc "net_peerCount" (zero : string) [] ;;
  match err with
  | Some e => ret (0, Some e)
  | None => ret (ParseInt response)
  end.

Definition MoacProtocolVersion (rpc : MoacRPC) : M (string * option error) :=
  '(protocolVersion, err) <-
    call_into rpc "mc_protocolVersion" (zero : string) [] ;;
  ret (protocolVersion, err).

Definition MoacSyncing (rpc : MoacRPC) : M (option Syncing * option error) :=
  '(result, err) <- RawCall rpc "mc_syncing" [] ;;
  match err with
  | Some e => ret (None, Some e)
  | None =>
    let syncing : Syncing := zero in
    if bytes_Equal result (Some "false") then ret (Some syncing, None)
    else
      let '(syncing, err) := json_Unmarshal (bytes_of result) syncing in
      ret (Some syncing, err)
  end.

Definition MoacCoinbase (rpc : MoacRPC) : M (string * option error) :=
  '(address, err) <- call_into rpc "mc_coinbase" (zero : string) [] ;;
  ret (address, err).

Definition MoacMining (rpc : MoacRPC) : M (bool * option error) :=
  '(mining, err) <- call_into rpc "mc_mining" (zero : bool) [] ;;
  ret (mining, err).

Definition MoacHashrate (rpc : MoacRPC) : M (Z * option error) :=
  '(response, err) <- call_into rpc "mc_hashrate" (zero : string) [] ;;
  match err with
  | Some e => ret (0, Some e)
  | None => ret (ParseInt response)
  end.

Definition MoacGasPrice (rpc : MoacRPC) : M (Z * option error) :=
  '(response, err) <- call_into rpc "mc_gasPrice" (zero : string) [] ;;
  match err with
  | Some e => ret (0, Some e)
  | None => ret (ParseBigInt response)
  end.

Definition MoacAccounts (rpc : MoacRPC)
  : M (option (list string) * option error) :=
  '(accounts, err) <-
    call_into rpc "mc_accounts" (Some [] : option (list string)) [] ;;
  ret (accounts, err).

Definition MoacBlockNumber (rpc : MoacRPC) : M (Z * option error) :=
  '(response, err) <- call_into rpc "mc_blockNumber" (zero : string) [] ;;
  match err with
  | Some e => ret (0, Some e)
  | None => ret (ParseInt response)
  end.

Definition MoacGetBalance (rpc : MoacRPC) (address block : string)
  : M (Z * option error) :=
  '(response, err) <-
    call_into rpc "mc_getBalance" (zero : string)
              [IString address; IString block] ;;
  match err with
  | Some e => ret (0, Some e)
  | None => ret (ParseBigInt response)
  end.

Definition MoacGetStorageAt (rpc : MoacRPC) (data : string) (position : Z)
    (tag : string) : M (string * option error) :=
  '(result, err) <-
    call_into rpc "mc_getStorageAt" (zero : string)
              [IString data; IString (IntToHex position); IString tag] ;;
  ret (result, err).

Definition MoacGetTransactionCount (rpc : MoacRPC) (address block : string)
  : M (Z * option error) :=
  '(response, err) <-
    call_into rpc "mc_getTransactionCount" (zero : string)
              [IString address; IString block] ;;
  match err with
  | Some e => ret (0, Some e)
  | None => ret (ParseInt response)
  end.

Definition MoacGetBlockTransactionCountByHash (rpc : MoacRPC) (hash : string)
  : M (Z * option error) :=
  '(response, err) <-
    call_into rpc "mc_getBlockTransactionCountByHash" (zero : string)
              [IString hash] ;;
  match err with
  | Some e => ret (0, Some e)
  | None => ret (ParseInt response)
  end.

Definition MoacGetBlockTransactionCountByNumber (rpc : MoacRPC) (number : Z)
  : M (Z * option error) :=
  '(response, err) <-
    call_into rpc "mc_getBlockTransactionCountByNumber" (zero : string)
              [IString (IntToHex number)] ;;
  match err with
  | Some e => ret (0, Some e)
  | None => ret (ParseInt response)
  end.

Definition MoacGetUncleCountByBlockHash (rpc : MoacRPC) (hash : string)
  : M (Z * option error) :=
  '(response, err) <-
    call_into rpc "mc_getUncleCountByBlockHash" (zero : string)
              [IString hash] ;;
  match err with
  | Some e => ret (0, Some e)
  | None => ret (ParseInt response)
  end.

Definition MoacGetUncleCountByBlockNumber (rpc : MoacRPC) (number : Z)
  : M (Z * option error) :=
  '(response, err) <-
    call_into rpc "mc_getUncleCountByBlockNumber" (zero : string)
              [IString (IntToHex number)] ;;
  match err with
  | Some e => ret (0, Some e)
  | None => ret (ParseInt response)
  end.

Definition MoacGetCode (rpc : MoacRPC) (address block : string)
  : M (string * option error) :=
  '(code, err) <-
    call_into rpc "mc_getCode" (zero : string)
              [IString address; IString block] ;;
  ret (code, err).

Definition MoacSign (rpc : MoacRPC) (address data : string)
  : M (string * option error) :=
  '(signature, err) <-
    call_into rpc "mc_sign" (zero : string) [IString address; IString data] ;;
  ret (signature, err).

Definition MoacSendTransaction (rpc : MoacRPC) (transaction : T)
  : M (string * option error) :=
  '(hash, err) <-
    call_into rpc "mc_sendTransaction" (zero : string)
              [ITransaction transaction] ;;
  ret (hash, err).

Definition MoacSendRawTransaction (rpc : MoacRPC) (data : string)
  : M (string * option error) :=
  '(hash, err) <-
    call_into rpc "mc_sendRawTransaction" (zero : string) [IString data] ;;
  ret (hash, err).

Definition MoacCall (rpc : MoacRPC) (transaction : T) (tag : string)
  : M (string * option error) :=
  '(data, err) <-
    call_into rpc "mc_call" (zero : string)
              [ITransaction transaction; IString tag] ;;
  ret (data, err).

Definition MoacEstimateGas (rpc : MoacRPC) (transaction : T)
  : M (Z * option error) :=
  '(response, err) <-
    call_into rpc "mc_estimateGas" (zero : string)
              [ITransaction transaction] ;;
  match err with
  | Some e => ret (0, Some e)
  | None => ret (ParseInt response)
  end.

Definition getBlock (rpc : MoacRPC) (method : string) (withTransactions : bool)
    (params : list iface) : M (option Block * option error) :=
  let response : proxyBlock :=
    if withTransactions then inl zero else inr zero in
  '(response, err) <- call_into rpc method response params ;;
  match err with
  | Some e => ret (None, Some e)
  | None =>
    let block := toBlock response in
    ret (Some block, None)
  end.

Definition MoacGetBlockByHash (rpc : MoacRPC) (hash : string)
    (withTransactions : bool) : M (option Block * option error) :=
  getBlock rpc "mc_getBlockByHash" withTransactions
           [IString hash; IBool withTransactions].

Definition MoacGetBlockByNumber (rpc : MoacRPC) (number : Z)
    (withTransactions : bool) : M (option Block * option error) :=
  getBlock rpc "mc_getBlockByNumber" withTransactions
           [IString (IntToHex number); IBool withTransactions].

Definition getTransaction (rpc : MoacRPC) (method : string)
    (params : list iface) : M (option Transaction * option error) :=
  let transaction : option Transaction := Some zero in
  '(transaction, err) <- call rpc method transaction params ;;
  ret (transaction, err).

Definition MoacGetTransactionByHash (rpc : MoacRPC) (hash : string)
  : M (option Transaction * option error) :=
  getTransaction rpc "mc_getTransactionByHash" [IString hash].

Definition MoacGetTransactionByBlockHashAndIndex (rpc : MoacRPC)
    (blockHash : string) (transactionIndex : Z)
  : M (option Transaction * option error) :=
  getTransaction rpc "mc_getTransactionByBlockHashAndIndex"
                 [IString blockHash; IString (IntToHex transactionIndex)].

Definition MoacGetTransactionByBlockNumberAndIndex (rpc : MoacRPC)
    (blockNumber transactionIndex : Z)
  : M (option Transaction * option error) :=
  getTransaction rpc "mc_getTransactionByBlockNumberAndIndex"
                 [IString (IntToHex blockNumber);
                  IString (IntToHex transactionIndex)].

Definition MoacGetTransactionReceipt (rpc : MoacRPC) (hash : string)
  : M (option TransactionReceipt * option error) :=
  let transactionReceipt : option TransactionReceipt := Some zero in
  '(transactionReceipt, err) <-
    call rpc "mc_getTransactionReceipt" transactionReceipt [IString hash] ;;
  match err with
  | Some e => ret (None, Some e)
  | None => ret (transactionReceipt, None)
  end.

Definition MoacGetCompilers (rpc : MoacRPC)
  : M (option (list string) * option error) :=
  '(compilers, err) <-
    call_into rpc "mc_getCompilers" (Some [] : option (list string)) [] ;;
  ret (compilers, err).

Definition MoacNewFilter (rpc : MoacRPC) (params : FilterParams)
  : M (string * option error) :=
  '(filterID, err) <-
    call_into rpc "mc_newFilter" (zero : string) [IFilterParams params] ;;
  ret (filterID, err).

Definition MoacNewBlockFilter (rpc : MoacRPC) : M (string * option error) :=
  '(filterID, err) <- call_into rpc "mc_newBlockFilter" (zero : string) [] ;;
  ret (filterID, err).

Definition MoacNewPendingTransactionFilter (rpc : MoacRPC)
  : M (string * option error) :=
  '(filterID, err) <-
    call_into rpc "mc_newPendingTransactionFilter" (zero : string) [] ;;
  ret (filterID, err).

Definition MoacUninstallFilter (rpc : MoacRPC) (filterID : string)
  : M (bool * option error) :=
  '(res, err) <-
    call_into rpc "mc_uninstallFilter" (zero : bool) [IString filterID] ;;
  ret (res, err).

Definition MoacGetFilterChanges (rpc : MoacRPC) (filterID : string)
  : M (option (list Log) * option error) :=
  '(logs, err) <-
    call_into rpc "mc_getFilterChanges" (Some [] : option (list Log))
              [IString filterID] ;;
  ret (logs, err).

Definition MoacGetFilterLogs (rpc : MoacRPC) (filterID : string)
  : M (option (list Log) * option error) :=
  '(logs, err) <-
    call_into rpc "mc_getFilterLogs" (Some [] : option (list Log))
              [IString filterID] ;;
  ret (logs, err).

Definition MoacGetLogs (rpc : MoacRPC) (params : FilterParams)
  : M (option (list Log) * option error) :=
  '(logs, err) <-
    call_into rpc "mc_getLogs" (Some [] : option (list Log))
              [IFilterParams params] ;;
  ret (logs, err).

(** The method [Moac1] of [MoacRPC] (moacrpc.go). *)
Definition MoacRPC_Moac1 (rpc : MoacRPC) : Z := Moac1.

(** *** The accessors as one family

    [accessor] names a public typed accessor with its arguments, [value] is
    what an accessor returns, and [run] is the dispatch from one to the
    other. *)

Inductive accessor : Type :=
| AChain3ClientVersion
| AChain3Sha3 (data : string)
| ANetVersion
| ANetListening
| ANetPeerCount
| AMoacProtocolVersion
| AMoacSyncing
| AMoacCoinbase
| AMoacMining
| AMoacHashrate
| AMoacGasPrice
| AMoacAccounts
| AMoacBlockNumber
| AMoacGetBalance (address block : string)
| AMoacGetStorageAt (data : string) (position : Z) (tag : string)
| AMoacGetTransactionCount (address block : string)
| AMoacGetBlockTransactionCountByHash (hash : string)
| AMoacGetBlockTransactionCountByNumber (number : Z)
| AMoacGetUncleCountByBlockHash (hash : string)
| AMoacGetUncleCountByBlockNumber (number : Z)
| AMoacGetCode (address block : string)
| AMoacSign (address data : string)
| AMoacSendTransaction (transaction : T)
| AMoacSendRawTransaction (data : string)
| AMoacCall (transaction : T) (tag : string)
| AMoacEstimateGas (transaction : T)
| AMoacGetBlockByHash (hash : string) (withTransactions : bool)
| AMoacGetBlockByNumber (number : Z) (withTransactions : bool)
| AMoacGetTransactionByHash (hash : string)
| AMoacGetTransactionByBlockHashAndIndex (blockHash : string) (index : Z)
| AMoacGetTransactionByBlockNumberAndIndex (blockNumber index : Z)
| AMoacGetTransactionReceipt (hash : string)
| AMoacGetCompilers
| AMoacNewFilter (params : FilterParams)
| AMoacNewBlockFilter
| AMoacNewPendingTransactionFilter
| AMoacUninstallFilter (filterID : string)
| AMoacGetFilterChanges (filterID : string)
| AMoacGetFilterLogs (filterID : string)
| AMoacGetLogs (params : FilterParams).

Inductive value : Type :=
| VString (s : string)
| VBool (b : bool)
| VInt (n : Z)
| VBigInt (n : Z)
| VStrings (l : option (list string))
| VLogs (l : option (list Log))
| VBlock (b : option Block)
| VTransaction (t : option Transaction)
| VReceipt (r : option TransactionReceipt)
| VSyncing (s : option Syncing).

Definition returning {A} (inj : A -> value) (m : M (A * option error))
  : M (value * option error) :=
  '(a, err) <- m ;; ret (inj a, err).

Definition run (rpc : MoacRPC) (a : accessor) : M (value * option error) :=
  match a with
  | AChain3ClientVersion => returning VString (Chain3ClientVersion rpc)
  | AChain3Sha3 data => returning VString (Chain3Sha3 rpc data)
  | ANetVersion => returning VString (NetVersion rpc)
  | ANetListening => returning VBool (NetListening rpc)
  | ANetPeerCount => returning VInt (NetPeerCount rpc)
  | AMoacProtocolVersion => returning VString (MoacProtocolVersion rpc)
  | AMoacSyncing => returning VSyncing (MoacSyncing rpc)
  | AMoacCoinbase => returning VString (MoacCoinbase rpc)
  | AMoacMining => returning VBool (MoacMining rpc)
  | AMoacHashrate => returning VInt (MoacHashrate rpc)
  | AMoacGasPrice => returning VBigInt (MoacGasPrice rpc)
  | AMoacAccounts => returning VStrings (MoacAccounts rpc)
  | AMoacBlockNumber => returning VInt (MoacBlockNumber rpc)
  | AMoacGetBalance address block =>
      returning VBigInt (MoacGetBalance rpc address block)
  | AMoacGetStorageAt data position tag =>
      returning VString (MoacGetStorageAt rpc data position tag)
  | AMoacGetTransactionCount address block =>
      returning VInt (MoacGetTransactionCount rpc address block)
  | AMoacGetBlockTransactionCountByHash hash =>
      returning VInt (MoacGetBlockTransactionCountByHash rpc hash)
  | AMoacGetBlockTransactionCountByNumber number =>
      returning VInt (MoacGetBlockTransactionCountByNumber rpc number)
  | AMoacGetUncleCountByBlockHash hash =>
      returning VInt (MoacGetUncleCountByBlockHash rpc hash)
  | AMoacGetUncleCountByBlockNumber number =>
      returning VInt (MoacGetUncleCountByBlockNumber rpc number)
  | AMoacGetCode address block =>
      returning VString (MoacGetCode rpc address block)
  | AMoacSign address data => returning VString (MoacSign rpc address data)
  | AMoacSendTransaction transaction =>
      returning VString (MoacSendTransaction rpc transaction)
  | AMoacSendRawTransaction data =>
      returning VString (MoacSendRawTransaction rpc data)
  | AMoacCall transaction tag =>
      returning VString (MoacCall rpc transaction tag)
  | AMoacEstimateGas transaction =>
      returning VInt (MoacEstimateGas rpc transaction)
  | AMoacGetBlockByHash hash withTransactions =>
      returning VBlock (MoacGetBlockByHash rpc hash withTransactions)
  | AMoacGetBlockByNumber number withTransactions =>
      returning VBlock (MoacGetBlockByNumber rpc number withTransactions)
  | AMoacGetTransactionByHash hash =>
      returning VTransaction (MoacGetTransactionByHash rpc hash)
  | AMoacGetTransactionByBlockHashAndIndex blockHash index =>
      returning VTransaction
        (MoacGetTransactionByBlockHashAndIndex rpc blockHash index)
  | AMoacGetTransactionByBlockNumberAndIndex blockNumber index =>
      returning VTransaction
        (MoacGetTransactionByBlockNumberAndIndex rpc blockNumber index)
  | AMoacGetTransactionReceipt hash =>
      returning VReceipt (MoacGetTransactionReceipt rpc hash)
  | AMoacGetCompilers => returning VStrings (MoacGetCompilers rpc)
  | AMoacNewFilter params => returning VString (MoacNewFilter rpc params)
  | AMoacNewBlockFilter => returning VString (MoacNewBlockFilter rpc)
  | AMoacNewPendingTransactionFilter =>
      returning VString (MoacNewPendingTransactionFilter rpc)
  | AMoacUninstallFilter filterID =>
      returning VBool (MoacUninstallFilter rpc filterID)
  | AMoacGetFilterChanges filterID =>
      returning VLogs (MoacGetFilterChanges rpc filterID)
  | AMoacGetFilterLogs filterID =>
      returning VLogs (MoacGetFilterLogs rpc filterID)
  | AMoacGetLogs params => returning VLogs (MoacGetLogs rpc params)
  end.

(** *** What a call looks like from outside *)

(** The raw exchange of a call, as the transport sees it: the request body
    that was posted and the response body that was read, when the request
    could be encoded, the transport answered without error and the body
    was read to its end. *)
Definition exchange (rpc : MoacRPC) (method : string) (params : list iface)
  : option (string * string) :=
  match json_Marshal (mkReq 1 "2.0" method params) with
  | (_, Some _) => None
  | (body, None) =>
    match Post (client rpc) (url rpc) "application/json" body with
    | (Some response, None) =>
      match Body response with
      | (data, None) => Some (body, data)
      | (_, Some _) => None
      end
    | _ => None
    end
  end.

(** The method name an accessor puts on the wire. *)
Definition method_of (a : accessor) : string :=
  match a with
  | AChain3ClientVersion => "chain3_clientVersion"
  | AChain3Sha3 _ => "chain3_sha3"
  | ANetVersion => "net_version"
  | ANetListening => "net_listening"
  | ANetPeerCount => "net_peerCount"
  | AMoacProtocolVersion => "mc_protocolVersion"
  | AMoacSyncing => "mc_syncing"
  | AMoacCoinbase => "mc_coinbase"
  | AMoacMining => "mc_mining"
  | AMoacHashrate => "mc_hashrate"
  | AMoacGasPrice => "mc_gasPrice"
  | AMoacAccounts => "mc_accounts"
  | AMoacBlockNumber => "mc_blockNumber"
  | AMoacGetBalance _ _ => "mc_getBalance"
  | AMoacGetStorageAt _ _ _ => "mc_getStorageAt"
  | AMoacGetTransactionCount _ _ => "mc_getTransactionCount"
  | AMoacGetBlockTransactionCountByHash _ =>
      "mc_getBlockTransactionCountByHash"
  | AMoacGetBlockTransactionCountByNumber _ =>
      "mc_getBlockTransactionCountByNumber"
  | AMoacGetUncleCountByBlockHash _ => "mc_getUncleCountByBlockHash"
  | AMoacGetUncleCountByBlockNumber _ => "mc_getUncleCountByBlockNumber"
  | AMoacGetCode _ _ => "mc_getCode"
  | AMoacSign _ _ => "mc_sign"
  | AMoacSendTransaction _ => "mc_sendTransaction"
  | AMoacSendRawTransaction _ => "mc_sendRawTransaction"
  | AMoacCall _ _ => "mc_call"
  | AMoacEstimateGas _ => "mc_estimateGas"
  | AMoacGetBlockByHash _ _ => "mc_getBlockByHash"
  | AMoacGetBlockByNumber _ _ => "mc_getBlockByNumber"
  | AMoacGetTransactionByHash _ => "mc_getTransactionByHash"
  | AMoacGetTransactionByBlockHashAndIndex _ _ =>
      "mc_getTransactionByBlockHashAndIndex"
  | AMoacGetTransactionByBlockNumberAndIndex _ _ =>
      "mc_getTransactionByBlockNumberAndIndex"
  | AMoacGetTransactionReceipt _ => "mc_getTransactionReceipt"
  | AMoacGetCompilers => "mc_getCompilers"
  | AMoacNewFilter _ => "mc_newFilter"
  | AMoacNewBlockFilter => "mc_newBlockFilter"
  | AMoacNewPendingTransactionFilter => "mc_newPendingTransactionFilter"
  | AMoacUninstallFilter _ => "mc_uninstallFilter"
  | AMoacGetFilterChanges _ => "mc_getFilterChanges"
  | AMoacGetFilterLogs _ => "mc_getFilterLogs"
  | AMoacGetLogs _ => "mc_getLogs"
  end.

(** The positional parameters an accessor puts on the wire. *)
Definition params_of (a : accessor) : list iface :=
  match a with
  | AChain3Sha3 data => [IString ("0x" ++ Hex.of_bytes data)]
  | AMoacGetBalance address block => [IString address; IString block]
  | AMoacGetStorageAt data position tag =>
      [IString data; IString (IntToHex position); IString tag]
  | AMoacGetTransactionCount address block =>
      [IString address; IString block]
  | AMoacGetBlockTransactionCountByHash hash => [IString hash]
  | AMoacGetBlockTransactionCountByNumber number =>
      [IString (IntToHex number)]
  | AMoacGetUncleCountByBlockHash hash => [IString hash]
  | AMoacGetUncleCountByBlockNumber number => [IString (IntToHex number)]
  | AMoacGetCode address block => [IString address; IString block]
  | AMoacSign address data => [IString address; IString data]
  | AMoacSendTransaction transaction => [ITransaction transaction]
  | AMoacSendRawTransaction data => [IString data]
  | AMoacCall transaction tag => [ITransaction transaction; IString tag]
  | AMoacEstimateGas transaction => [ITransaction transaction]
  | AMoacGetBlockByHash hash withTransactions =>
      [IString hash; IBool withTransactions]
  | AMoacGetBlockByNumber number withTransactions =>
      [IString (IntToHex number); IBool withTransactions]
  | AMoacGetTransactionByHash hash => [IString hash]
  | AMoacGetTransactionByBlockHashAndIndex blockHash index =>
      [IString blockHash; IString (IntToHex index)]
  | AMoacGetTransactionByBlockNumberAndIndex blockNumber index =>
      [IString (IntToHex blockNumber); IString (IntToHex index)]
  | AMoacGetTransactionReceipt hash => [IString hash]
  | AMoacNewFilter params => [IFilterParams params]
  | AMoacUninstallFilter filterID => [IString filterID]
  | AMoacGetFilterChanges filterID => [IString filterID]
  | AMoacGetFilterLogs filterID => [IString filterID]
  | AMoacGetLogs params => [IFilterParams params]
  | _ => []
  end.

(** The zero value of an accessor's result type: the empty string, [false],
    0, the nil slice, the nil pointer. *)
Definition zero_result (a : accessor) : value :=
  match a with
  | ANetListening | AMoacMining | AMoacUninstallFilter _ => VBool false
  | ANetPeerCount | AMoacHashrate | AMoacBlockNumber
  | AMoacGetTransactionCount _ _
  | AMoacGetBlockTransactionCountByHash _
  | AMoacGetBlockTransactionCountByNumber _
  | AMoacGetUncleCountByBlockHash _
  | AMoacGetUncleCountByBlockNumber _
  | AMoacEstimateGas _ => VInt 0
  | AMoacGasPrice | AMoacGetBalance _ _ => VBigInt 0
  | AMoacAccounts | AMoacGetCompilers => VStrings None
  | AMoacGetFilterChanges _ | AMoacGetFilterLogs _ | AMoacGetLogs _ =>
      VLogs None
  | AMoacGetBlockByHash _ _ | AMoacGetBlockByNumber _ _ => VBlock None
  | AMoacGetTransactionByHash _
  | AMoacGetTransactionByBlockHashAndIndex _ _
  | AMoacGetTransactionByBlockNumberAndIndex _ _ => VTransaction None
  | AMoacGetTransactionReceipt _ => VReceipt None
  | AMoacSyncing => VSyncing None
  | _ => VString EmptyString
  end.

(** What an accessor's result variable holds before anything is decoded
    into it.  It is the zero value except where the accessor starts from an
    empty list ([[]string{}], [[]Log{}]) or from a fresh object
    ([new(Transaction)]) that it hands back whatever the error. *)
Definition initial_result (a : accessor) : value :=
  match a with
  | AMoacAccounts | AMoacGetCompilers => VStrings (Some [])
  | AMoacGetFilterChanges _ | AMoacGetFilterLogs _ | AMoacGetLogs _ =>
      VLogs (Some [])
  | AMoacGetTransactionByHash _
  | AMoacGetTransactionByBlockHashAndIndex _ _
  | AMoacGetTransactionByBlockNumberAndIndex _ _ => VTransaction (Some zero)
  | _ => zero_result a
  end.

(** The accessors that test the error before they build their result:
    [if err != nil { return 0, err }], [return nil, err]. *)
Definition guarded (a : accessor) : bool :=
  match a with
  | ANetPeerCount | AMoacHashrate | AMoacBlockNumber
  | AMoacGetTransactionCount _ _
  | AMoacGetBlockTransactionCountByHash _
  | AMoacGetBlockTransactionCountByNumber _
  | AMoacGetUncleCountByBlockHash _
  | AMoacGetUncleCountByBlockNumber _
  | AMoacEstimateGas _
  | AMoacGasPrice | AMoacGetBalance _ _
  | AMoacGetBlockByHash _ _ | AMoacGetBlockByNumber _ _
  | AMoacGetTransactionReceipt _ => true
  | _ => false
  end.

End Client.

(** ** Test doubles

    A canned transport and a small decoder, in the manner of the package's
    own tests, which register a response body for a method and then call
    the accessor. *)

Module Mock.

(** The double quote. *)
Definition DQ : string := String (ascii_of_nat 34) EmptyString.

Definition quoted (s : string) : string := DQ ++ s ++ DQ.

Definition param : Type := @iface unit unit unit.
Definition request : Type := @ethRequest unit unit unit.

Definition encode_param (p : param) : string :=
  match p with
  | IString s => quoted s
  | IBool true => "true"
  | IBool false => "false"
  | _ => "{}"
  end.

Definition encode_request : Marshaler request :=
  fun r =>
    ("{" ++ quoted "id" ++ ":" ++ (if ID r =? 1 then "1" else "0") ++ ","
         ++ quoted "jsonrpc" ++ ":" ++ quoted (JSONRPC r) ++ ","
         ++ quoted "method" ++ ":" ++ quoted (Method r) ++ ","
         ++ quoted "params" ++ ":["
         ++ String.concat "," (map encode_param (Params r)) ++ "]}",
     None).

(** An encoder that rejects every request. *)
Definition encode_nothing : Marshaler request :=
  fun _ => (EmptyString, Some (LibError "json: unsupported type")).

Definition envelope (fields : string) : string :=
  "{" ++ quoted "id" ++ ":1," ++ quoted "jsonrpc" ++ ":" ++ quoted "2.0"
      ++ "," ++ fields ++ "}".

(** [{"id":1,"jsonrpc":"2.0","result":"0xde0b6b3a7640000"}] *)
Definition body_balance : string :=
  envelope (quoted "result" ++ ":" ++ quoted "0xde0b6b3a7640000").

(** [{"id":1,"jsonrpc":"2.0","result":false}] *)
Definition body_false : string :=
  envelope (quoted "result" ++ ":false").

Definition syncing_object : string :=
  "{" ++ quoted "startingBlock" ++ ":" ++ quoted "0x1" ++ ","
      ++ quoted "currentBlock" ++ ":" ++ quoted "0x2" ++ ","
      ++ quoted "highestBlock" ++ ":" ++ quoted "0x3" ++ "}".

(** A response whose [result] is a sync-status object. *)
Definition body_syncing : string :=
  envelope (quoted "result" ++ ":" ++ syncing_object).

Definition error_object : string :=
  "{" ++ quoted "code" ++ ":-32000," ++ quoted "message" ++ ":"
      ++ quoted "boom" ++ "}".

(** A response that carries both a result and an error. *)
Definition body_error : string :=
  envelope (quoted "result" ++ ":" ++ quoted "0x1" ++ ","
            ++ quoted "error" ++ ":" ++ error_object).

Definition boom : MoacError := mkMoacError (-32000) "boom".

(** The envelope decoder knows the canned bodies and nothing else. *)
Definition decode_response : Unmarshaler ethResponse :=
  fun data resp =>
    if String.eqb data body_balance
    then (mkResp 1 "2.0" (Some (quoted "0xde0b6b3a7640000")) None, None)
    else if String.eqb data body_false
    then (mkResp 1 "2.0" (Some "false") None, None)
    else if String.eqb data body_syncing
    then (mkResp 1 "2.0" (Some syncing_object) None, None)
    else if String.eqb data body_error
    then (mkResp 1 "2.0" (Some (quoted "0x1")) (Some boom), None)
    else (resp, Some (LibError "invalid character")).

(** A JSON string without escapes decodes to its content. *)
Definition decode_string : Unmarshaler string :=
  fun data target =>
    match data with
    | String c rest =>
        let n := String.length rest in
        if Ascii.eqb c (ascii_of_nat 34)
           && String.eqb (substring (n - 1) 1 rest) DQ
        then (substring 0 (n - 1) rest, None)
        else (target, Some (LibError "cannot unmarshal into string"))
    | EmptyString => (target, Some (LibError "unexpected end of JSON input"))
    end.

Definition decode_bool : Unmarshaler bool :=
  fun data target =>
    if String.eqb data "true" then (true, None)
    else if String.eqb data "false" then (false, None)
    else (target, Some (LibError "cannot unmarshal into bool")).

Definition decode_syncing : Unmarshaler Syncing :=
  fun data target =>
    if String.eqb data syncing_object then (mkSyncing true 1 2 3, None)
    else (target, Some (LibError "cannot unmarshal into Syncing")).

(** Entities the scenarios do not look into. *)
Definition decode_opaque {A} : Unmarshaler A :=
  fun data target => (target, Some (LibError "not decoded")).

Definition zero_unit : Zero unit := tt.

Definition block_of_unit : ProxyBlock unit unit := fun b => b.

(** A transport that answers every request with the same body. *)
Definition replying (body : string) : httpClient :=
  mkClient (fun _ _ _ => (Some (mkResponse (body, None)), None)).

(** A transport that fails without a response. *)
Definition failing (e : error) : httpClient :=
  mkClient (fun _ _ _ => (None, Some e)).

Definition refused : error := LibError "connection refused".

Definition node : string := "http://127.0.0.1:8545".

(** A client of the node at [node], over the given transport. *)
Definition over (c : httpClient) (debug : bool) : MoacRPC :=
  New c node [WithDebug debug].

(** [{"id":1,"jsonrpc":"2.0","method":"mc_getBalance",
      "params":["0xabc","latest"]}] *)
Definition getBalance_request : string :=
  "{" ++ quoted "id" ++ ":1," ++ quoted "jsonrpc" ++ ":" ++ quoted "2.0"
      ++ "," ++ quoted "method" ++ ":" ++ quoted "mc_getBalance" ++ ","
      ++ quoted "params" ++ ":[" ++ quoted "0xabc" ++ "," ++ quoted "latest"
      ++ "]}".

(** [{"id":1,"jsonrpc":"2.0","method":"net_version","params":[]}] *)
Definition netVersion_request : string :=
  "{" ++ quoted "id" ++ ":1," ++ quoted "jsonrpc" ++ ":" ++ quoted "2.0"
      ++ "," ++ quoted "method" ++ ":" ++ quoted "net_version" ++ ","
      ++ quoted "params" ++ ":[]}".

(** The client code over the test doubles; every entity is [unit]. *)
#[local] Existing Instances encode_request decode_response decode_string
  decode_bool decode_syncing zero_unit block_of_unit.
#[local] Existing Instance decode_opaque | 100.

Definition accessor : Type := @accessor unit unit.
Definition value : Type := @value unit unit unit unit.

Definition Call (rpc : MoacRPC) (method : string) (params : list param)
  : M (RawMessage * option error) :=
  Call rpc method params.

Definition MoacSyncing (rpc : MoacRPC) : M (option Syncing * option error) :=
  MoacSyncing (T := unit) (FilterParams := unit) (GoValue := unit) rpc.

Definition MoacGetBalance (rpc : MoacRPC) (address block : string)
  : M (Z * option error) :=
  MoacGetBalance (T := unit) (FilterParams := unit) (GoValue := unit)
                 rpc address block.

Definition run (rpc : MoacRPC) (a : accessor) : M (value * option error) :=
  run (proxyBlockWithTransactions := unit)
      (proxyBlockWithoutTransactions := unit) (GoValue := unit) rpc a.

Definition zero_result (a : accessor) : value := zero_result a.

End Mock.

(** ** [MoacError] as an error *)

(** What [%d] prints for a native integer. *)
Definition decimal (n : Z) : string := NilZero.string_of_int (Z.to_int n).

(** [MoacError.Error] (moacrpc.go):
    [fmt.Sprintf("Error %d (%s)", err.Code, err.Message)]. *)
Definition MoacError_Error (err : MoacError) : string :=
  "Error " ++ decimal (Code err) ++ " (" ++ Message err ++ ")".

(** ** Reading a trace *)

(** The requests handed to the transport. *)
Definition posts (t : list event) : list event :=
  filter (fun e => match e with EvPost _ _ _ => true | _ => false end) t.

(** How many times a response body was closed. *)
Definition closes (t : list event) : nat :=
  List.length (filter (fun e => match e with EvClose => true | _ => false end) t).

(** How many times a response body was read. *)
Definition reads (t : list event) : nat :=
  List.length (filter (fun e => match e with EvReadAll => true | _ => false end) t).

(** The trace without what went to the logger. *)
Definition unlogged (t : list event) : list event :=
  filter (fun e => match e with EvPrintln _ => false | _ => true end) t.

(** ** Reading hexadecimal text *)

(** One of [0123456789abcdef]. *)
Definition lower_hex (c : ascii) : bool :=
  let n := Z.of_nat (nat_of_ascii c) in
  ((48 <=? n) && (n <=? 57)) || ((97 <=? n) && (n <=? 102)).

Fixpoint every (p : ascii -> bool) (s : string) : bool :=
  match s with
  | EmptyString => true
  | String c rest => p c && every p rest
  end.

(** The bytes that pairs of hex digits stand for, high digit first. *)
Fixpoint unhex (digits : string) : option string :=
  match digits with
  | EmptyString => Some EmptyString
  | String high (String low rest) =>
      match Hex.digit_value high, Hex.digit_value low, unhex rest with
      | Some h, Some l, Some bytes =>
          Some (String (ascii_of_nat (Z.to_nat (16 * h + l))) bytes)
      | _, _, _ => None
      end
  | String _ EmptyString => None
  end.

(** ** Reading a result *)

(** A decoder that fails leaves its target as it found it, as
    [json.Unmarshal] does for a string or a boolean target. *)
Definition leaves_target_on_error {A : Type} (U : Unmarshaler A) : Prop :=
  forall data x x' e, @json_Unmarshal A U data x = (x', Some e) -> x' = x.

(** The accessors that return a string or a boolean as it was decoded. *)
Definition scalar {T FilterParams : Type} (a : @accessor T FilterParams)
  : bool :=
  match a with
  | AChain3ClientVersion | AChain3Sha3 _ | ANetVersion | ANetListening
  | AMoacProtocolVersion | AMoacCoinbase | AMoacMining
  | AMoacGetStorageAt _ _ _ | AMoacGetCode _ _ | AMoacSign _ _
  | AMoacSendTransaction _ | AMoacSendRawTransaction _ | AMoacCall _ _
  | AMoacNewFilter _ | AMoacNewBlockFilter
  | AMoacNewPendingTransactionFilter | AMoacUninstallFilter _ => true
  | _ => false
  end.

(** A nil pointer among the results; lists and scalars are never one. *)
Definition is_nil_pointer {Block Transaction TransactionReceipt Log : Type}
    (v : @value Block Transaction TransactionReceipt Log) : bool :=
  match v with
  | VBlock None | VTransaction None | VReceipt None | VSyncing None => true
  | _ => false
  end.

(** The place of an accessor in moacrpc.go, whatever its arguments. *)
Definition accessor_index {T FilterParams : Type}
    (a : @accessor T FilterParams) : nat :=
  match a with
  | AChain3ClientVersion => 0
  | AChain3Sha3 _ => 1
  | ANetVersion => 2
  | ANetListening => 3
  | ANetPeerCount => 4
  | AMoacProtocolVersion => 5
  | AMoacSyncing => 6
  | AMoacCoinbase => 7
  | AMoacMining => 8
  | AMoacHashrate => 9
  | AMoacGasPrice => 10
  | AMoacAccounts => 11
  | AMoacBlockNumber => 12
  | AMoacGetBalance _ _ => 13
  | AMoacGetStorageAt _ _ _ => 14
  | AMoacGetTransactionCount _ _ => 15
  | AMoacGetBlockTransactionCountByHash _ => 16
  | AMoacGetBlockTransactionCountByNumber _ => 17
  | AMoacGetUncleCountByBlockHash _ => 18
  | AMoacGetUncleCountByBlockNumber _ => 19
  | AMoacGetCode _ _ => 20
  | AMoacSign _ _ => 21
  | AMoacSendTransaction _ => 22
  | AMoacSendRawTransaction _ => 23
  | AMoacCall _ _ => 24
  | AMoacEstimateGas _ => 25
  | AMoacGetBlockByHash _ _ => 26
  | AMoacGetBlockByNumber _ _ => 27
  | AMoacGetTransactionByHash _ => 28
  | AMoacGetTransactionByBlockHashAndIndex _ _ => 29
  | AMoacGetTransactionByBlockNumberAndIndex _ _ => 30
  | AMoacGetTransactionReceipt _ => 31
  | AMoacGetCompilers => 32
  | AMoacNewFilter _ => 33
  | AMoacNewBlockFilter => 34
  | AMoacNewPendingTransactionFilter => 35
  | AMoacUninstallFilter _ => 36
  | AMoacGetFilterChanges _ => 37
  | AMoacGetFilterLogs _ => 38
  | AMoacGetLogs _ => 39
  end%nat.

(** ** Faulty transports *)

Module Faulty.

(** A response that arrives together with an error, as the standard client
    does when it gives up on a redirect. *)
Definition redirecting (body : string) (e : error) : httpClient :=
  mkClient (fun _ _ _ => (Some (mkResponse (body, None)), Some e)).

(** A response whose body breaks off while it is read. *)
Definition truncated (read : string) (e : error) : httpClient :=
  mkClient (fun _ _ _ => (Some (mkResponse (read, Some e)), None)).

(** Neither a response nor an error. *)
Definition mute : httpClient :=
  mkClient (fun _ _ _ => (None, None)).

Definition too_many_redirects : error := LibError "stopped after 10 redirects".

Definition unexpected_EOF : error := LibError "unexpected EOF".

(** [getBlock] and the decoders of [call] over the test doubles. *)
Definition getBlock (rpc : MoacRPC) (method : string) (withTransactions : bool)
    (params : list Mock.param) : M (option unit * option error) :=
  getBlock (M_request := Mock.encode_request)
           (U_response := Mock.decode_response)
           (U_blockWith := Mock.decode_opaque)
           (U_blockWithout := Mock.decode_opaque)
           (Z_blockWith := Mock.zero_unit) (Z_blockWithout := Mock.zero_unit)
           (P_blockWith := Mock.block_of_unit)
           (P_blockWithout := Mock.block_of_unit)
           rpc method withTransactions params.

End Faulty.

(** * Properties *)

(** ** Numeric codec *)

Lemma digit_value_digit (d : Z) :
  0 <= d < 16 -> Hex.digit_value (Hex.digit d) = Some d.
Proof.
  intros Hd.
  assert (Hcases : d = 0 \/ d = 1 \/ d = 2 \/ d = 3 \/ d = 4 \/ d = 5
                   \/ d = 6 \/ d = 7 \/ d = 8 \/ d = 9 \/ d = 10 \/ d = 11
                   \/ d = 12 \/ d = 13 \/ d = 14 \/ d = 15) by lia.
  repeat (destruct Hcases as [-> | Hcases]; [reflexivity | ]).
  subst d. reflexivity.
Qed.

Lemma value_app (s1 s2 : string) (acc : Z) :
  Hex.value (s1 ++ s2) acc =
  match Hex.value s1 acc with
  | Some acc' => Hex.value s2 acc'
  | None => None
  end.
Proof.
  revert acc. induction s1 as [ | c s1 IH]; intros acc; simpl.
  - reflexivity.
  - destruct (Hex.digit_value c); [apply IH | reflexivity].
Qed.

Lemma value_one_digit (d acc : Z) :
  0 <= d < 16 ->
  Hex.value (String (Hex.digit d) EmptyString) acc = Some (16 * acc + d).
Proof.
  intros Hd. simpl. now rewrite digit_value_digit.
Qed.

Lemma value_digits (fuel : nat) :
  forall n, 0 <= n < 16 ^ (Z.of_nat fuel + 1) ->
            Hex.value (Hex.digits fuel n) 0 = Some n.
Proof.
  induction fuel as [ | fuel IH]; intros n Hn.
  - change (16 ^ (Z.of_nat 0 + 1)) with 16 in Hn.
    cbn [Hex.digits]. rewrite Z.mod_small by lia.
    rewrite value_one_digit by lia. f_equal; lia.
  - cbn [Hex.digits]. destruct (n <? 16) eqn:Hsmall.
    + apply Z.ltb_lt in Hsmall.
      rewrite value_one_digit by lia. f_equal; lia.
    + apply Z.ltb_ge in Hsmall.
      rewrite value_app, IH.
      * rewrite value_one_digit by (apply Z.mod_pos_bound; lia).
        f_equal; symmetry; apply Z.div_mod; lia.
      * split; [apply Z.div_pos; lia | ].
        apply Z.div_lt_upper_bound; [lia | ].
        replace (Z.of_nat (S fuel) + 1) with (Z.succ (Z.of_nat fuel + 1))
          in Hn by lia.
        rewrite Z.pow_succ_r in Hn by lia. lia.
Qed.

Lemma digits_nonempty (fuel : nat) (n : Z) :
  exists c rest, Hex.digits fuel n = String c rest.
Proof.
  revert n. induction fuel as [ | fuel IH]; intros n; cbn [Hex.digits].
  - eauto.
  - destruct (n <? 16); [eauto | ].
    destruct (IH (n / 16)) as (c & rest & ->). simpl. eauto.
Qed.

Lemma hex_payload_prefixed (fuel : nat) (n : Z) :
  hex_payload ("0x" ++ Hex.digits fuel n) = Hex.value (Hex.digits fuel n) 0.
Proof.
  destruct (digits_nonempty fuel n) as (c & rest & ->). reflexivity.
Qed.

Lemma below_pow16_log2 (n : Z) :
  0 <= n -> n < 16 ^ (Z.of_nat (Z.to_nat (Z.log2 n)) + 1).
Proof.
  intros Hn. rewrite Z2Nat.id by apply Z.log2_nonneg.
  destruct (Z.eq_dec n 0) as [-> | Hpos].
  - reflexivity.
  - assert (Hlog : n < 2 ^ Z.succ (Z.log2 n)) by (apply Z.log2_spec; lia).
    assert (Hmono : 2 ^ (Z.log2 n + 1) <= 16 ^ (Z.log2 n + 1)).
    { apply Z.pow_le_mono_l. lia. }
    unfold Z.succ in Hlog. lia.
Qed.

Lemma hex_payload_IntToHex (n : Z) :
  0 <= n -> hex_payload (IntToHex n) = Some n.
Proof.
  intros Hn. unfold IntToHex. rewrite Z.max_l by lia.
  rewrite hex_payload_prefixed.
  apply value_digits. split; [lia | now apply below_pow16_log2].
Qed.

(** C8.  For every non-negative native integer [n], decoding the hex
    encoding of [n] succeeds and gives [n] back:
    [ParseInt(IntToHex(n)) = (n, nil)]. *)
Theorem ParseInt_IntToHex (n : Z) :
  0 <= n <= Hex.max_int -> ParseInt (IntToHex n) = (n, None).
Proof.
  intros [Hlo Hhi]. unfold ParseInt.
  rewrite hex_payload_IntToHex by exact Hlo.
  apply Z.leb_le in Hhi. now rewrite Hhi.
Qed.

Lemma ParseInt_IntToHex_witness :
  0 <= 1000000 <= Hex.max_int /\
  ParseInt (IntToHex 1000000) = (1000000, None).
Proof.
  assert (H : 0 <= 1000000 <= Hex.max_int) by (unfold Hex.max_int; lia).
  split; [exact H | exact (ParseInt_IntToHex 1000000 H)].
Defined.

(** C10.  The free function [Moac1] and the method of the same name both
    return exactly 10^18, the number of wei in one MOAC, whatever the
    client. *)
Theorem Moac1_is_ten_pow_18 :
  Moac1 = 10 ^ 18 /\ forall rpc : MoacRPC, MoacRPC_Moac1 rpc = 10 ^ 18.
Proof.
  split; [ | intros rpc; unfold MoacRPC_Moac1]; reflexivity.
Qed.

Lemma ParseInt_failure (s : string) (n : Z) (e : error) :
  ParseInt s = (n, Some e) -> n = 0.
Proof.
  unfold ParseInt. destruct (hex_payload s) as [v | ].
  - destruct (v <=? Hex.max_int); intros Heq; inversion Heq; reflexivity.
  - intros Heq; inversion Heq; reflexivity.
Qed.

Lemma ParseBigInt_failure (s : string) (n : Z) (e : error) :
  ParseBigInt s = (n, Some e) -> n = 0.
Proof.
  unfold ParseBigInt. destruct (hex_payload s) as [v | ];
    intros Heq; inversion Heq; reflexivity.
Qed.

(** ** The dispatcher and the accessors *)

Section Dispatch.

Context {T FilterParams Block Transaction TransactionReceipt Log : Type}.
Context {proxyBlockWithTransactions proxyBlockWithoutTransactions : Type}.
Context {GoValue : Type}.
Context {M_request : Marshaler (@ethRequest T FilterParams GoValue)}.
Context {U_response : Unmarshaler ethResponse}.
Context {U_string : Unmarshaler string}.
Context {U_bool : Unmarshaler bool}.
Context {U_strings : Unmarshaler (option (list string))}.
Context {U_logs : Unmarshaler (option (list Log))}.
Context {U_syncing : Unmarshaler Syncing}.
Context {U_transaction : Unmarshaler Transaction}.
Context {U_receipt : Unmarshaler TransactionReceipt}.
Context {U_blockWith : Unmarshaler proxyBlockWithTransactions}.
Context {U_blockWithout : Unmarshaler proxyBlockWithoutTransactions}.
Context {Z_transaction : Zero Transaction}.
Context {Z_receipt : Zero TransactionReceipt}.
Context {Z_blockWith : Zero proxyBlockWithTransactions}.
Context {Z_blockWithout : Zero proxyBlockWithoutTransactions}.
Context {P_blockWith : ProxyBlock Block proxyBlockWithTransactions}.
Context {P_blockWithout : ProxyBlock Block proxyBlockWithoutTransactions}.

#[local] Abbreviation iface := (@iface T FilterParams GoValue).
#[local] Abbreviation accessor := (@accessor T FilterParams).
#[local] Abbreviation value := (@value Block Transaction TransactionReceipt Log).
#[local] Abbreviation run :=
  (@run T FilterParams Block Transaction TransactionReceipt Log
        proxyBlockWithTransactions proxyBlockWithoutTransactions GoValue
        M_request U_response U_string U_bool U_strings U_logs U_syncing
        U_transaction U_receipt U_blockWith U_blockWithout
        Z_transaction Z_receipt Z_blockWith Z_blockWithout
        P_blockWith P_blockWithout).
#[local] Abbreviation initial_result :=
  (@initial_result T FilterParams Block Transaction TransactionReceipt Log
                   Z_transaction).

(** [Call], path by path. *)
Lemma Call_paths (rpc : MoacRPC) (method : string) (params : list iface) :
  Call rpc method params =
  match json_Marshal (mkReq 1 "2.0" method params) with
  | (_, Some e) => ([], Some (None, Some e))
  | (body, None) =>
    let post := EvPost (url rpc) "application/json" body in
    match Post (client rpc) (url rpc) "application/json" body with
    | (None, Some e) => ([post], Some (None, Some e))
    | (None, None) => ([post], None)
    | (Some _, Some e) => ([post; EvClose], Some (None, Some e))
    | (Some response, None) =>
      match Body response with
      | (_, Some e) => ([post; EvReadAll; EvClose], Some (None, Some e))
      | (data, None) =>
        ((post :: EvReadAll
            :: (if Debug rpc
                then [EvPrintln (debug_line method body data)]
                else []) ++ [EvClose])%list,
         Some match json_Unmarshal data (zero : ethResponse) with
              | (_, Some e) => (None, Some e)
              | (resp, None) =>
                match Error resp with
                | Some e => (None, Some (RpcError e))
                | None => (Result resp, None)
                end
              end)
      end
    end
  end.
Proof.
  unfold Call.
  destruct (json_Marshal _) as [body [e | ]]; [reflexivity | ].
  unfold client_Post, ioutil_ReadAll, log_Println, emit, bind, ret, defer,
    panic.
  destruct (Post _ _ _ _) as [[response | ] [e | ]]; try reflexivity.
  destruct (Body response) as [data [e | ]]; [reflexivity | ].
  destruct (Debug rpc);
    destruct (json_Unmarshal data zero) as [resp [e | ]]; try reflexivity;
    destruct (Error resp); reflexivity.
Qed.

Lemma call_failure {A} `{Unmarshaler A} (rpc : MoacRPC) (method : string)
    (target : option A) (params : list iface) (r : RawMessage) (e : error) :
  outcome (Call rpc method params) = Some (r, Some e) ->
  outcome (call rpc method target params) = Some (target, Some e).
Proof.
  unfold call, bind, outcome.
  destruct (Call rpc method params) as [t [[r' err] | ]]; simpl;
    intros Heq; inversion Heq; subst. reflexivity.
Qed.

Lemma call_into_failure {A} `{Unmarshaler A} (rpc : MoacRPC)
    (method : string) (x : A) (params : list iface)
    (r : RawMessage) (e : error) :
  outcome (Call rpc method params) = Some (r, Some e) ->
  outcome (call_into rpc method x params) = Some (x, Some e).
Proof.
  intros Hcall. unfold call_into.
  pose proof (call_failure rpc method (Some x) params r e Hcall) as Hc.
  unfold bind, outcome in *.
  destruct (call rpc method (Some x) params) as [t [[p err] | ]];
    simpl in *; inversion Hc; subst. reflexivity.
Qed.

Lemma call_trace {A} `{Unmarshaler A} (rpc : MoacRPC) (method : string)
    (target : option A) (params : list iface) :
  trace (call rpc method target params) = trace (Call rpc method params).
Proof.
  unfold call, bind, trace, ret.
  destruct (Call rpc method params) as [t [[r [e | ]] | ]]; simpl;
    [ | | reflexivity]; [now rewrite app_nil_r | ].
  destruct target as [v | ]; [destruct (json_Unmarshal _ v) | ]; simpl;
    now rewrite app_nil_r.
Qed.

Lemma call_into_trace {A} `{Unmarshaler A} (rpc : MoacRPC) (method : string)
    (x : A) (params : list iface) :
  trace (call_into rpc method x params) = trace (Call rpc method params).
Proof.
  unfold call_into.
  pose proof (call_trace rpc method (Some x) params) as Ht.
  unfold bind, trace, ret in *.
  destruct (call rpc method (Some x) params) as [t [[p err] | ]];
    simpl in *; subst; [now rewrite app_nil_r | reflexivity].
Qed.

(** Unfolding an accessor down to its one use of the dispatcher. *)
Ltac unfold_accessor :=
  cbn [run method_of params_of initial_result zero_result];
  unfold returning, Chain3ClientVersion, Chain3Sha3, NetVersion, NetListening,
    NetPeerCount, MoacProtocolVersion, MoacSyncing, MoacCoinbase, MoacMining,
    MoacHashrate, MoacGasPrice, MoacAccounts, MoacBlockNumber, MoacGetBalance,
    MoacGetStorageAt, MoacGetTransactionCount,
    MoacGetBlockTransactionCountByHash, MoacGetBlockTransactionCountByNumber,
    MoacGetUncleCountByBlockHash, MoacGetUncleCountByBlockNumber, MoacGetCode,
    MoacSign, MoacSendTransaction, MoacSendRawTransaction, MoacCall,
    MoacEstimateGas, MoacGetBlockByHash, MoacGetBlockByNumber, getBlock,
    MoacGetTransactionByHash, MoacGetTransactionByBlockHashAndIndex,
    MoacGetTransactionByBlockNumberAndIndex, getTransaction,
    MoacGetTransactionReceipt, MoacGetCompilers, MoacNewFilter,
    MoacNewBlockFilter, MoacNewPendingTransactionFilter, MoacUninstallFilter,
    MoacGetFilterChanges, MoacGetFilterLogs, MoacGetLogs, RawCall;
  cbv zeta.

(** A failed dispatch, pushed through the helper the accessor uses. *)
Ltac dispatch_failed H :=
  match goal with
  | |- context [bind ?m _] =>
      let Hc := fresh "Hc" in
      let t := fresh "t" in
      let o := fresh "o" in
      eassert (Hc : outcome m = Some (_, Some _))
        by first [ eapply call_into_failure; exact H
                 | eapply call_failure; exact H
                 | exact H ];
      destruct m as [t o]; unfold outcome in Hc; simpl in Hc; subst o
  end.

(** Every accessor talks to the transport exactly as its one dispatch does. *)
Lemma run_trace (rpc : MoacRPC) (a : accessor) :
  trace (run rpc a) = trace (Call rpc (method_of a) (params_of a)).
Proof.
  destruct a; unfold_accessor;
    repeat match goal with
      | |- context [@call_into _ _ _ _ _ ?A ?U ?r ?m ?x ?ps] =>
          let t := fresh "t" in
          rewrite <- (@call_into_trace A U r m x ps);
          destruct (@call_into _ _ _ _ _ A U r m x ps) as [t [[? [? | ]] | ]]
      | |- context [@call _ _ _ _ _ ?A ?U ?r ?m ?x ?ps] =>
          let t := fresh "t" in
          rewrite <- (@call_trace A U r m x ps);
          destruct (@call _ _ _ _ _ A U r m x ps) as [t [[? [? | ]] | ]]
      | |- context [Call ?r ?m ?ps] =>
          let t := fresh "t" in
          destruct (Call r m ps) as [t [[? [? | ]] | ]]
      end;
    unfold bind, ret, trace; simpl;
    repeat match goal with
      | |- context [if ?b then _ else _] => destruct b
      | |- context [json_Unmarshal ?d ?x] => destruct (json_Unmarshal d x)
      | |- context [ParseInt ?s] => destruct (ParseInt s)
      | |- context [ParseBigInt ?s] => destruct (ParseBigInt s)
      end;
    simpl; rewrite ?app_nil_r; reflexivity.
Qed.

(** When the dispatch fails, the accessor hands back the error and what its
    result variable held at the start. *)
Lemma run_failure (rpc : MoacRPC) (a : accessor) (r : RawMessage) (e : error) :
  outcome (Call rpc (method_of a) (params_of a)) = Some (r, Some e) ->
  outcome (run rpc a) = Some (initial_result a, Some e).
Proof.
  intros Hcall.
  destruct a; unfold_accessor; cbn [method_of params_of] in Hcall;
    dispatch_failed Hcall; unfold bind, ret, outcome; reflexivity.
Qed.

(** Once the exchange is complete, what is left is the log line, the
    envelope and the deferred close. *)
Lemma Call_after_exchange (rpc : MoacRPC) (method : string)
    (params : list iface) (body data : string) :
  exchange rpc method params = Some (body, data) ->
  Call rpc method params =
  ((EvPost (url rpc) "application/json" body :: EvReadAll
      :: (if Debug rpc then [EvPrintln (debug_line method body data)] else [])
      ++ [EvClose])%list,
   Some match json_Unmarshal data (zero : ethResponse) with
        | (_, Some e) => (None, Some e)
        | (resp, None) =>
          match Error resp with
          | Some e => (None, Some (RpcError e))
          | None => (Result resp, None)
          end
        end).
Proof.
  rewrite Call_paths. unfold exchange.
  destruct (json_Marshal _) as [body' [e | ]]; [discriminate | ].
  destruct (Post _ _ _ _) as [[response | ] [e | ]]; try discriminate.
  destruct (Body response) as [data' [e | ]]; [discriminate | ].
  intros Heq. inversion Heq; subst. reflexivity.
Qed.

(** C9.  [RawCall] is [Call]: for every client, method name and parameter
    list the two entry points do the same to the collaborators and return
    the same raw result and error. *)
Theorem RawCall_is_Call (rpc : MoacRPC) (method : string)
    (params : list iface) :
  RawCall rpc method params = Call rpc method params.
Proof.
  unfold RawCall. reflexivity.
Qed.

(** C3.  For every method name and parameter list, the request [Call]
    encodes has id 1, version tag ["2.0"], the given method and exactly the
    given parameters in the caller's order: when the encoder rejects that
    request nothing is sent and its error is returned, and otherwise the
    first thing [Call] does is to post the encoding of that request to the
    client's URL as [application/json]. *)
Theorem Call_builds_request (rpc : MoacRPC) (method : string)
    (params : list iface) :
  let request :=
    {| ID := 1; JSONRPC := "2.0"; Method := method; Params := params |} in
  match json_Marshal request with
  | (_, Some e) => Call rpc method params = ([], Some (None, Some e))
  | (body, None) =>
      exists rest,
        trace (Call rpc method params) =
        EvPost (url rpc) "application/json" body :: rest
  end.
Proof.
  cbv zeta. rewrite Call_paths.
  destruct (json_Marshal _) as [body [e | ]]; [reflexivity | ].
  cbv zeta.
  destruct (Post _ _ _ _) as [[response | ] [e | ]];
    try (eexists; reflexivity).
  destruct (Body response) as [data [e | ]]; eexists; reflexivity.
Qed.

(** C6.  When the transport answers with a nil response and a non-nil
    error, [Call] returns a nil result with that very error; it does not
    panic and the only thing it did is the post: the body is neither read
    nor closed. *)
Theorem Call_transport_error (rpc : MoacRPC) (method : string)
    (params : list iface) (body : string) (e : error) :
  json_Marshal (mkReq 1 "2.0" method params) = (body, None) ->
  Post (client rpc) (url rpc) "application/json" body = (None, Some e) ->
  Call rpc method params =
  ([EvPost (url rpc) "application/json" body], Some (None, Some e)).
Proof.
  intros Hbody Hpost. rewrite Call_paths, Hbody. cbv zeta.
  now rewrite Hpost.
Qed.

(** C1.  When the response body decodes to an envelope whose error field is
    populated, [Call] returns a nil result and the RPC error with the code
    and message of that field, whatever the result field holds; and every
    typed accessor returns that same error. *)
Theorem rpc_error_reported (rpc : MoacRPC) (data : string)
    (resp : ethResponse) (e : MoacError) :
  json_Unmarshal data (zero : ethResponse) = (resp, None) ->
  Error resp = Some e ->
  (forall method params body,
      exchange rpc method params = Some (body, data) ->
      outcome (Call rpc method params) = Some (None, Some (RpcError e)))
  /\
  (forall a body,
      exchange rpc (method_of a) (params_of a) = Some (body, data) ->
      exists v, outcome (run rpc a) = Some (v, Some (RpcError e))).
Proof.
  intros Hresp Herr.
  assert (Hcall : forall method params body,
             exchange rpc method params = Some (body, data) ->
             outcome (Call rpc method params)
             = Some (None, Some (RpcError e))).
  { intros method params body Hex.
    rewrite (Call_after_exchange _ _ _ _ _ Hex), Hresp, Herr.
    reflexivity. }
  split; [exact Hcall | ].
  intros a body Hex. exists (initial_result a).
  eapply run_failure, Hcall, Hex.
Qed.

(** C2.  When the dispatch for [mc_syncing] succeeds with raw result [raw]:
    if [raw] is byte for byte [false], [MoacSyncing] returns the zero-valued
    status (not syncing, block numbers 0) and no error; otherwise it returns
    what decoding [raw] into a fresh [Syncing] gives, with the decoder's
    error. *)
Theorem MoacSyncing_false_or_object (rpc : MoacRPC) (raw : RawMessage) :
  outcome (RawCall rpc "mc_syncing" []) = Some (raw, None) ->
  (bytes_of raw = "false" ->
   outcome (MoacSyncing rpc) = Some (Some (mkSyncing false 0 0 0), None))
  /\
  (bytes_of raw <> "false" ->
   outcome (MoacSyncing rpc) =
   Some (Some (fst (json_Unmarshal (bytes_of raw) (zero : Syncing))),
         snd (json_Unmarshal (bytes_of raw) (zero : Syncing)))).
Proof.
  intros Hcall. unfold MoacSyncing, bind, ret, outcome in *.
  destruct (RawCall rpc "mc_syncing" []) as [t [[raw' err] | ]];
    simpl in Hcall; inversion Hcall; subst.
  unfold bytes_Equal. cbn [bytes_of].
  split; intros Hraw.
  - rewrite Hraw. reflexivity.
  - apply String.eqb_neq in Hraw. rewrite Hraw.
    destruct (json_Unmarshal (bytes_of raw) zero); reflexivity.
Qed.

(** C5.  [MoacGetBalance(address, block)] posts the encoding of the request
    with method ["mc_getBalance"] and parameters [address, block] in that
    order; when the response carries no error and its result decodes to the
    string ["0xde0b6b3a7640000"], the accessor returns the big integer
    1000000000000000000 and a nil error. *)
Theorem MoacGetBalance_one_moac (rpc : MoacRPC) (address block : string)
    (body data : string) (response : http_Response) (resp : ethResponse) :
  json_Marshal (mkReq 1 "2.0" "mc_getBalance" [IString address; IString block])
  = (body, None) ->
  Post (client rpc) (url rpc) "application/json" body
  = (Some response, None) ->
  Body response = (data, None) ->
  json_Unmarshal data (zero : ethResponse) = (resp, None) ->
  Error resp = None ->
  json_Unmarshal (bytes_of (Result resp)) (zero : string)
  = ("0xde0b6b3a7640000", None) ->
  (exists rest,
      trace (MoacGetBalance rpc address block) =
      EvPost (url rpc) "application/json" body :: rest)
  /\ outcome (MoacGetBalance rpc address block)
     = Some (1000000000000000000, None).
Proof.
  intros Hbody Hpost Hread Hresp Herr Hstr.
  assert (Hex : exchange rpc "mc_getBalance" [IString address; IString block]
                = Some (body, data)).
  { unfold exchange. now rewrite Hbody, Hpost, Hread. }
  pose proof (Call_after_exchange _ _ _ _ _ Hex) as Hcall.
  rewrite Hresp, Herr in Hcall.
  unfold MoacGetBalance, call_into, call.
  rewrite Hcall. unfold bind, ret, trace, outcome.
  cbn [fst snd]. rewrite Hstr. cbn.
  split; [eexists; reflexivity | reflexivity].
Qed.

(** C7, amended.  The logger receives a line exactly when the debug flag is
    set and the exchange was completed (the request was encoded, the
    transport answered without error and the body was read); it is then
    one line, made of the method name, the raw request body and the raw
    response body, and it does not depend on whether the envelope then
    decodes or carries an error. *)
Theorem debug_log_line (rpc : MoacRPC) (method : string)
    (params : list iface) :
  printed (trace (Call rpc method params)) =
  if Debug rpc then
    match exchange rpc method params with
    | Some (body, data) => [debug_line method body data]
    | None => []
    end
  else [].
Proof.
  rewrite Call_paths. unfold exchange.
  destruct (json_Marshal _) as [body [e | ]];
    [now destruct (Debug rpc) | ].
  cbv zeta.
  destruct (Post _ _ _ _) as [[response | ] [e | ]];
    try (now destruct (Debug rpc)).
  destruct (Body response) as [data [e | ]]; now destruct (Debug rpc).
Qed.

(** A guarded accessor never returns anything but the zero value of its
    result type next to an error. *)
Lemma run_guarded (rpc : MoacRPC) (a : accessor) (v : value) (e : error) :
  guarded a = true ->
  outcome (run rpc a) = Some (v, Some e) ->
  v = zero_result a.
Proof.
  intros Hguard.
  destruct a; try discriminate Hguard; clear Hguard; unfold_accessor;
    match goal with
    | |- context [@call_into _ _ _ _ _ ?A ?U ?r ?m ?x ?ps] =>
        destruct (@call_into _ _ _ _ _ A U r m x ps)
          as [t [[response [err | ]] | ]]
    | |- context [@call _ _ _ _ _ ?A ?U ?r ?m ?x ?ps] =>
        destruct (@call _ _ _ _ _ A U r m x ps)
          as [t [[response [err | ]] | ]]
    end;
    unfold bind, ret, outcome; cbn [fst snd];
    try (intros Heq; inversion Heq; reflexivity);
    try (destruct (ParseInt response) as [n [err | ]] eqn:Hparse;
         intros Heq; inversion Heq; subst;
         now rewrite (ParseInt_failure _ _ _ Hparse));
    try (destruct (ParseBigInt response) as [n [err | ]] eqn:Hparse;
         intros Heq; inversion Heq; subst;
         now rewrite (ParseBigInt_failure _ _ _ Hparse)).
Qed.

(** With a decoder that leaves its target alone when it fails, the variable
    handed to [call] is unchanged whenever [call] returns an error. *)
Lemma call_into_error_value {A} (U : Unmarshaler A) (rpc : MoacRPC)
    (method : string) (x : A) (params : list iface) (x' : A) (e : error) :
  leaves_target_on_error U ->
  outcome (call_into rpc method x params) = Some (x', Some e) -> x' = x.
Proof.
  intros Hleaves. unfold call_into, call, bind, ret, outcome.
  destruct (Call rpc method params) as [t [[result [err | ]] | ]];
    cbn [fst snd].
  - intros Heq. now inversion Heq.
  - destruct (json_Unmarshal (bytes_of result) x) as [v [err | ]] eqn:Hdecode;
      cbn [fst snd]; intros Heq; inversion Heq; subst.
    exact (Hleaves _ _ _ _ Hdecode).
  - discriminate.
Qed.

(** A string or boolean accessor never returns anything but the zero value
    next to an error, as long as the decoder of strings and booleans leaves
    its target alone when it fails. *)
Lemma run_scalar (rpc : MoacRPC) (a : accessor) (v : value) (e : error) :
  scalar a = true ->
  leaves_target_on_error U_string ->
  leaves_target_on_error U_bool ->
  outcome (run rpc a) = Some (v, Some e) ->
  v = zero_result a.
Proof.
  intros Hscalar Hstring Hbool.
  destruct a; try discriminate Hscalar; clear Hscalar; unfold_accessor;
    match goal with
    | |- context [@call_into _ _ _ _ _ ?A ?U ?r ?m ?x ?ps] =>
        let Hvalue := fresh "Hvalue" in
        assert (Hvalue : forall x' e',
                   outcome (@call_into _ _ _ _ _ A U r m x ps)
                   = Some (x', Some e') -> x' = x)
          by (intros x' e'; apply call_into_error_value; assumption);
        destruct (@call_into _ _ _ _ _ A U r m x ps)
          as [t [[response [err | ]] | ]]
    end;
    unfold bind, ret, outcome in *; cbn [fst snd] in *;
    intros Heq; inversion Heq; subst;
    now rewrite (Hvalue _ _ eq_refl).
Qed.

(** C4, amended.  Whenever the dispatch behind a typed accessor fails
    (encoding, transport, reading the body, decoding the envelope, or an
    RPC error), the accessor returns that non-nil error together with the
    initial value of its result variable, which holds nothing of the
    response: the zero value for the string, boolean, integer and
    big-integer accessors, nil for the block, receipt and sync-status
    accessors, an empty non-nil list for the list accessors and a pointer to
    a zero-valued transaction for the transaction accessors.  The integer,
    big-integer, block and receipt accessors, which test the error before
    they build their result, return the zero value of their result type
    with every error, also one raised while the result payload is decoded.
    So do the string and boolean accessors, since the decoder leaves a
    string or a boolean target as it found it when it fails. *)
Theorem accessor_on_failure (rpc : MoacRPC) (a : accessor) :
  (forall r e,
      outcome (Call rpc (method_of a) (params_of a)) = Some (r, Some e) ->
      outcome (run rpc a) = Some (initial_result a, Some e))
  /\
  (guarded a = true ->
   forall v e, outcome (run rpc a) = Some (v, Some e) -> v = zero_result a)
  /\
  (scalar a = true ->
   leaves_target_on_error U_string ->
   leaves_target_on_error U_bool ->
   forall v e, outcome (run rpc a) = Some (v, Some e) -> v = zero_result a).
Proof.
  split; [ | split].
  - intros r e Hcall. exact (run_failure rpc a r e Hcall).
  - intros Hguard v e Hrun. exact (run_guarded rpc a v e Hguard Hrun).
  - intros Hscalar Hstring Hbool v e Hrun.
    exact (run_scalar rpc a v e Hscalar Hstring Hbool Hrun).
Qed.

End Dispatch.

(** ** Scenarios over the test doubles *)

Lemma rpc_error_reported_witness :
  outcome (Mock.Call (Mock.over (Mock.replying Mock.body_error) false)
                     "mc_getBalance" [IString "0xabc"; IString "latest"])
  = Some (None, Some (RpcError Mock.boom))
  /\ exists v,
      outcome (Mock.run (Mock.over (Mock.replying Mock.body_error) false)
                        (AMoacGetBalance "0xabc" "latest"))
      = Some (v, Some (RpcError Mock.boom)).
Proof.
  destruct (rpc_error_reported
              (M_request := Mock.encode_request)
              (U_response := Mock.decode_response)
              (U_string := Mock.decode_string)
              (U_bool := Mock.decode_bool)
              (U_strings := Mock.decode_opaque)
              (U_logs := Mock.decode_opaque)
              (U_syncing := Mock.decode_syncing)
              (U_transaction := Mock.decode_opaque)
              (U_receipt := Mock.decode_opaque)
              (U_blockWith := Mock.decode_opaque)
              (U_blockWithout := Mock.decode_opaque)
              (Z_transaction := Mock.zero_unit)
              (Z_receipt := Mock.zero_unit)
              (Z_blockWith := Mock.zero_unit)
              (Z_blockWithout := Mock.zero_unit)
              (P_blockWith := Mock.block_of_unit)
              (P_blockWithout := Mock.block_of_unit)
              (Log := unit)
              (Mock.over (Mock.replying Mock.body_error) false)
              Mock.body_error
              (mkResp 1 "2.0" (Some (Mock.quoted "0x1")) (Some Mock.boom))
              Mock.boom eq_refl eq_refl)
    as [Hcall Hrun].
  split.
  - eapply Hcall. reflexivity.
  - eapply (Hrun (AMoacGetBalance "0xabc" "latest")). reflexivity.
Defined.

Lemma MoacSyncing_false_or_object_witness :
  outcome (Mock.MoacSyncing (Mock.over (Mock.replying Mock.body_false) false))
  = Some (Some (mkSyncing false 0 0 0), None)
  /\ outcome
       (Mock.MoacSyncing (Mock.over (Mock.replying Mock.body_syncing) false))
     = Some (Some (mkSyncing true 1 2 3), None).
Proof.
  split.
  - apply (proj1 (MoacSyncing_false_or_object
                    (T := unit) (FilterParams := unit) (GoValue := unit)
                    (M_request := Mock.encode_request)
                    (U_response := Mock.decode_response)
                    (U_syncing := Mock.decode_syncing)
                    (Mock.over (Mock.replying Mock.body_false) false)
                    (Some "false") eq_refl)).
    reflexivity.
  - unfold Mock.MoacSyncing.
    rewrite (proj2 (MoacSyncing_false_or_object
                      (T := unit) (FilterParams := unit) (GoValue := unit)
                      (M_request := Mock.encode_request)
                      (U_response := Mock.decode_response)
                      (U_syncing := Mock.decode_syncing)
                      (Mock.over (Mock.replying Mock.body_syncing) false)
                      (Some Mock.syncing_object) eq_refl)).
    + reflexivity.
    + intros Heq. vm_compute in Heq. discriminate Heq.
Defined.

Lemma Call_transport_error_witness :
  Mock.Call (Mock.over (Mock.failing Mock.refused) true) "net_version" []
  = ([EvPost Mock.node "application/json" Mock.netVersion_request],
     Some (None, Some Mock.refused)).
Proof.
  unfold Mock.Call. apply Call_transport_error; reflexivity.
Defined.

Lemma MoacGetBalance_one_moac_witness :
  (exists rest,
      trace (Mock.MoacGetBalance
               (Mock.over (Mock.replying Mock.body_balance) true)
               "0xabc" "latest")
      = EvPost Mock.node "application/json" Mock.getBalance_request :: rest)
  /\ outcome (Mock.MoacGetBalance
                (Mock.over (Mock.replying Mock.body_balance) true)
                "0xabc" "latest")
     = Some (1000000000000000000, None).
Proof.
  unfold Mock.MoacGetBalance.
  eapply (MoacGetBalance_one_moac
            (M_request := Mock.encode_request)
            (U_response := Mock.decode_response)
            (U_string := Mock.decode_string)
            (Mock.over (Mock.replying Mock.body_balance) true)
            "0xabc" "latest" Mock.getBalance_request Mock.body_balance
            (mkResponse (Mock.body_balance, None))
            (mkResp 1 "2.0" (Some (Mock.quoted "0xde0b6b3a7640000")) None));
    reflexivity.
Defined.

(** C7, as stated, fails: with the debug flag set and a transport that
    refuses the connection, the call fails and nothing is logged. *)
Lemma debug_set_but_nothing_logged :
  let rpc := Mock.over (Mock.failing Mock.refused) true in
  Debug rpc = true
  /\ outcome (Mock.Call rpc "net_version" [])
     = Some (None, Some Mock.refused)
  /\ printed (trace (Mock.Call rpc "net_version" [])) = []
  /\ ~ (printed (trace (Mock.Call rpc "net_version" [])) <> []
        <-> Debug rpc = true).
Proof.
  cbv zeta. repeat split; try reflexivity.
  intros [_ Hlog]. apply Hlog; reflexivity.
Qed.

(** C4, as stated, fails.  With a transport that refuses the connection the
    account list comes back empty and not nil; on an RPC error a
    transaction accessor returns a non-nil pointer; on a result that does
    not decode, the sync-status accessor returns a non-nil pointer.  None is
    the zero value of the result type. *)
Lemma value_returned_with_error :
  let refused := Mock.over (Mock.failing Mock.refused) false in
  let failed := Mock.over (Mock.replying Mock.body_error) false in
  let undecoded := Mock.over (Mock.replying Mock.body_balance) false in
  let a : Mock.accessor := AMoacGetTransactionByHash "0x1" in
  (outcome (Mock.run refused AMoacAccounts)
   = Some (VStrings (Some []), Some Mock.refused)
   /\ Mock.zero_result AMoacAccounts = VStrings None)
  /\ (outcome (Mock.run failed a)
      = Some (VTransaction (Some tt), Some (RpcError Mock.boom))
      /\ Mock.zero_result a = VTransaction None)
  /\ outcome (Mock.run undecoded AMoacSyncing)
     = Some (VSyncing (Some (mkSyncing false 0 0 0)),
             Some (LibError "cannot unmarshal into Syncing"))
  /\ ~ (forall (rpc : MoacRPC) (b : Mock.accessor) v e,
           outcome (Mock.run rpc b) = Some (v, Some e) ->
           v = Mock.zero_result b).
Proof.
  cbv zeta. repeat split.
  intros Hzero.
  specialize (Hzero (Mock.over (Mock.replying Mock.body_error) false)
                    (AMoacGetTransactionByHash "0x1")
                    (VTransaction (Some tt)) (RpcError Mock.boom) eq_refl).
  vm_compute in Hzero. discriminate Hzero.
Qed.

Lemma decode_string_leaves_target :
  leaves_target_on_error Mock.decode_string.
Proof.
  intros data x x' e. unfold json_Unmarshal, Mock.decode_string.
  destruct data as [ | c rest]; [intros Heq; now inversion Heq | ].
  destruct (_ && _); intros Heq; now inversion Heq.
Qed.

Lemma decode_bool_leaves_target :
  leaves_target_on_error Mock.decode_bool.
Proof.
  intros data x x' e. unfold json_Unmarshal, Mock.decode_bool.
  destruct (String.eqb data "true"); [intros Heq; now inversion Heq | ].
  destruct (String.eqb data "false"); intros Heq; now inversion Heq.
Qed.

Lemma accessor_on_failure_witness :
  let refused := Mock.over (Mock.failing Mock.refused) false in
  let undecoded := Mock.over (Mock.replying Mock.body_false) false in
  outcome (Mock.run refused AMoacAccounts)
  = Some (VStrings (Some []), Some Mock.refused)
  /\ (outcome (Mock.run undecoded ANetPeerCount)
      = Some (VInt 0, Some (LibError "cannot unmarshal into string"))
      /\ VInt 0 = Mock.zero_result ANetPeerCount)
  /\ (outcome (Mock.run undecoded AChain3ClientVersion)
      = Some (VString "", Some (LibError "cannot unmarshal into string"))
      /\ VString "" = Mock.zero_result AChain3ClientVersion).
Proof.
  cbv zeta. unfold Mock.run, Mock.zero_result.
  split; [ | split; (split; [reflexivity | ])].
  - eapply (proj1 (accessor_on_failure _ AMoacAccounts)). reflexivity.
  - eapply (proj1 (proj2 (accessor_on_failure
                     (M_request := Mock.encode_request)
                     (U_response := Mock.decode_response)
                     (U_string := Mock.decode_string)
                     (U_bool := Mock.decode_bool)
                     (U_strings := Mock.decode_opaque)
                     (U_logs := Mock.decode_opaque)
                     (U_syncing := Mock.decode_syncing)
                     (U_transaction := Mock.decode_opaque)
                     (U_receipt := Mock.decode_opaque)
                     (U_blockWith := Mock.decode_opaque)
                     (U_blockWithout := Mock.decode_opaque)
                     (Z_transaction := Mock.zero_unit)
                     (Z_receipt := Mock.zero_unit)
                     (Z_blockWith := Mock.zero_unit)
                     (Z_blockWithout := Mock.zero_unit)
                     (P_blockWith := Mock.block_of_unit)
                     (P_blockWithout := Mock.block_of_unit)
                     (Mock.over (Mock.replying Mock.body_false) false)
                     ANetPeerCount)) eq_refl).
    reflexivity.
  - eapply (proj2 (proj2 (accessor_on_failure
                     (M_request := Mock.encode_request)
                     (U_response := Mock.decode_response)
                     (U_string := Mock.decode_string)
                     (U_bool := Mock.decode_bool)
                     (U_strings := Mock.decode_opaque)
                     (U_logs := Mock.decode_opaque)
                     (U_syncing := Mock.decode_syncing)
                     (U_transaction := Mock.decode_opaque)
                     (U_receipt := Mock.decode_opaque)
                     (U_blockWith := Mock.decode_opaque)
                     (U_blockWithout := Mock.decode_opaque)
                     (Z_transaction := Mock.zero_unit)
                     (Z_receipt := Mock.zero_unit)
                     (Z_blockWith := Mock.zero_unit)
                     (Z_blockWithout := Mock.zero_unit)
                     (P_blockWith := Mock.block_of_unit)
                     (P_blockWithout := Mock.block_of_unit)
                     (Mock.over (Mock.replying Mock.body_false) false)
                     AChain3ClientVersion)) eq_refl
                  decode_string_leaves_target decode_bool_leaves_target).
    reflexivity.
Defined.

(** The whole exchange of the balance scenario with the debug flag set: the
    post, the read, the log line, and last the deferred close. *)
Example MoacGetBalance_exchange :
  Mock.MoacGetBalance (Mock.over (Mock.replying Mock.body_balance) true)
                      "0xabc" "latest"
  = ([EvPost Mock.node "application/json" Mock.getBalance_request;
      EvReadAll;
      EvPrintln (debug_line "mc_getBalance" Mock.getBalance_request
                            Mock.body_balance);
      EvClose],
     Some (1000000000000000000, None)).
Proof. reflexivity. Qed.

(** A transport that answers with neither a response nor an error makes
    [Call] dereference nil. *)
Example Call_nil_response_nil_error :
  Mock.Call (Mock.over (mkClient (fun _ _ _ => (None, None))) false)
            "net_version" []
  = ([EvPost Mock.node "application/json" Mock.netVersion_request], None).
Proof. reflexivity. Qed.

(** An encoder that rejects the request: nothing is sent. *)
Example Call_request_not_encoded :
  Call (M_request := Mock.encode_nothing)
       (U_response := Mock.decode_response)
       (Mock.over (Mock.replying Mock.body_balance) true) "net_version" []
  = ([], Some (None, Some (LibError "json: unsupported type"))).
Proof. reflexivity. Qed.

(** * Further properties of the code *)

(** ** One exchange: what [Call] does to the transport *)

Section Exchange.

Context {T FilterParams GoValue : Type}.
Context {M_request : Marshaler (@ethRequest T FilterParams GoValue)}.
Context {U_response : Unmarshaler ethResponse}.

#[local] Abbreviation iface := (@iface T FilterParams GoValue).

(** [Call] hands the transport one request at most: the encoding of its
    request, posted to the client's URL as [application/json], and nothing
    when the request cannot be encoded. *)
Theorem Call_posts_once (rpc : MoacRPC) (method : string)
    (params : list iface) :
  posts (trace (Call rpc method params)) =
  match json_Marshal (mkReq 1 "2.0" method params) with
  | (body, None) => [EvPost (url rpc) "application/json" body]
  | (_, Some _) => []
  end.
Proof.
  rewrite Call_paths.
  destruct (json_Marshal _) as [body [e | ]]; [reflexivity | ]. cbv zeta.
  destruct (Post _ _ _ _) as [[response | ] [e | ]]; try reflexivity.
  destruct (Body response) as [data [e | ]]; [reflexivity | ].
  destruct (Debug rpc); reflexivity.
Qed.

(** The body of a response is closed exactly once whenever the transport
    handed a response back, with or without an error, and never otherwise;
    the close is the last thing [Call] does, and a body is read at most
    once and never without being closed. *)
Theorem Call_closes_body (rpc : MoacRPC) (method : string)
    (params : list iface) :
  closes (trace (Call rpc method params)) =
  match json_Marshal (mkReq 1 "2.0" method params) with
  | (body, None) =>
      match Post (client rpc) (url rpc) "application/json" body with
      | (Some _, _) => 1%nat
      | (None, _) => 0%nat
      end
  | (_, Some _) => 0%nat
  end
  /\ (closes (trace (Call rpc method params)) = 1%nat ->
      exists t, trace (Call rpc method params) = (t ++ [EvClose])%list)
  /\ (reads (trace (Call rpc method params))
      <= closes (trace (Call rpc method params)))%nat.
Proof.
  rewrite Call_paths.
  destruct (json_Marshal _) as [body [e | ]]; cbv zeta.
  - repeat split; [discriminate | apply le_n].
  - destruct (Post _ _ _ _) as [[response | ] [e | ]].
    + repeat split; [ | apply le_S, le_n].
      intros _. eexists [_]. reflexivity.
    + destruct (Body response) as [data [e | ]].
      * repeat split; [ | apply le_n].
        intros _. eexists [_; _]. reflexivity.
      * destruct (Debug rpc); (repeat split; [ | apply le_n]); intros _.
        -- eexists [_; _; _]. reflexivity.
        -- eexists [_; _]. reflexivity.
    + repeat split; [discriminate | apply le_n].
    + repeat split; [discriminate | apply le_n].
Qed.

(** When the request was encoded and the transport answers with neither a
    response nor an error, [Call] panics on the nil response after the
    post: nothing is read, closed or logged, and nothing is returned. *)
Theorem Call_nil_response_panics (rpc : MoacRPC) (method : string)
    (params : list iface) (body : string) :
  json_Marshal (mkReq 1 "2.0" method params) = (body, None) ->
  Post (client rpc) (url rpc) "application/json" body = (None, None) ->
  Call rpc method params = ([EvPost (url rpc) "application/json" body], None).
Proof.
  intros Hbody Hpost. rewrite Call_paths, Hbody. cbv zeta.
  now rewrite Hpost.
Qed.

(** A raw result never comes with an error: when [Call] returns an error,
    of whatever origin, the raw result is nil. *)
Theorem Call_error_nil_result (rpc : MoacRPC) (method : string)
    (params : list iface) (r : RawMessage) (e : error) :
  outcome (Call rpc method params) = Some (r, Some e) -> r = None.
Proof.
  rewrite Call_paths.
  destruct (json_Marshal _) as [body [e' | ]]; cbv zeta.
  - intros Heq. now inversion Heq.
  - destruct (Post _ _ _ _) as [[response | ] [e' | ]];
      try (intros Heq; now inversion Heq).
    destruct (Body response) as [data [e' | ]];
      [intros Heq; now inversion Heq | ].
    unfold outcome, snd.
    destruct (json_Unmarshal data zero) as [resp [e' | ]];
      [intros Heq; now inversion Heq | ].
    destruct (Error resp); intros Heq; now inversion Heq.
Qed.

(** When the transport hands back a response together with an error, [Call]
    returns the error, closes the body and does not read it. *)
Theorem Call_error_with_response (rpc : MoacRPC) (method : string)
    (params : list iface) (body : string) (response : http_Response)
    (e : error) :
  json_Marshal (mkReq 1 "2.0" method params) = (body, None) ->
  Post (client rpc) (url rpc) "application/json" body
  = (Some response, Some e) ->
  Call rpc method params =
  ([EvPost (url rpc) "application/json" body; EvClose],
   Some (None, Some e)).
Proof.
  intros Hbody Hpost. rewrite Call_paths, Hbody. cbv zeta.
  now rewrite Hpost.
Qed.

(** When reading the body fails, [Call] returns the read error and closes
    the body; what was read is dropped, and nothing is logged even with the
    debug flag set. *)
Theorem Call_read_error (rpc : MoacRPC) (method : string)
    (params : list iface) (body data : string) (response : http_Response)
    (e : error) :
  json_Marshal (mkReq 1 "2.0" method params) = (body, None) ->
  Post (client rpc) (url rpc) "application/json" body
  = (Some response, None) ->
  Body response = (data, Some e) ->
  Call rpc method params =
  ([EvPost (url rpc) "application/json" body; EvReadAll; EvClose],
   Some (None, Some e)).
Proof.
  intros Hbody Hpost Hread. rewrite Call_paths, Hbody. cbv zeta.
  now rewrite Hpost, Hread.
Qed.

(** When the response body does not decode as an envelope, [Call] returns
    the decoder's error and a nil result, whatever the decoder had already
    written into the envelope, an error object included. *)
Theorem Call_envelope_error (rpc : MoacRPC) (method : string)
    (params : list iface) (body data : string) (resp : ethResponse)
    (e : error) :
  exchange rpc method params = Some (body, data) ->
  json_Unmarshal data (zero : ethResponse) = (resp, Some e) ->
  outcome (Call rpc method params) = Some (None, Some e).
Proof.
  intros Hex Hresp.
  now rewrite (Call_after_exchange _ _ _ _ _ Hex), Hresp.
Qed.

(** When the envelope decodes and holds no error, [Call] returns the bytes
    of its result field as they are, nil when the field is absent, and no
    error. *)
Theorem Call_raw_result (rpc : MoacRPC) (method : string)
    (params : list iface) (body data : string) (resp : ethResponse) :
  exchange rpc method params = Some (body, data) ->
  json_Unmarshal data (zero : ethResponse) = (resp, None) ->
  Error resp = None ->
  outcome (Call rpc method params) = Some (Result resp, None).
Proof.
  intros Hex Hresp Herr.
  now rewrite (Call_after_exchange _ _ _ _ _ Hex), Hresp, Herr.
Qed.

(** Switching the debug flag changes neither what [Call] returns nor what it
    does to the transport. *)
Lemma Call_WithDebug (rpc : MoacRPC) (enabled : bool)
    (method : string) (params : list iface) :
  outcome (Call (WithDebug enabled rpc) method params)
  = outcome (Call rpc method params)
  /\ unlogged (trace (Call (WithDebug enabled rpc) method params))
     = unlogged (trace (Call rpc method params)).
Proof.
  rewrite !Call_paths. cbn [WithDebug url client Debug].
  destruct (json_Marshal _) as [body [e | ]]; [now split | ]. cbv zeta.
  destruct (Post _ _ _ _) as [[response | ] [e | ]]; try now split.
  destruct (Body response) as [data [e | ]]; [now split | ].
  destruct enabled, (Debug rpc); now split.
Qed.

End Exchange.

(** ** The accessors over one exchange *)

Lemma outcome_bind {A B} (m : M A) (f : A -> M B) :
  outcome (bind m f) =
  match outcome m with
  | Some a => outcome (f a)
  | None => None
  end.
Proof.
  destruct m as [t [a | ]]; unfold bind, outcome; simpl; [ | reflexivity].
  now destruct (f a).
Qed.

(** An accessor, down to its one use of [call], [call_into] or [Call]. *)
Ltac open_accessor :=
  cbn [run method_of params_of];
  unfold returning, Chain3ClientVersion, Chain3Sha3, NetVersion, NetListening,
    NetPeerCount, MoacProtocolVersion, MoacSyncing, MoacCoinbase, MoacMining,
    MoacHashrate, MoacGasPrice, MoacAccounts, MoacBlockNumber, MoacGetBalance,
    MoacGetStorageAt, MoacGetTransactionCount,
    MoacGetBlockTransactionCountByHash, MoacGetBlockTransactionCountByNumber,
    MoacGetUncleCountByBlockHash, MoacGetUncleCountByBlockNumber, MoacGetCode,
    MoacSign, MoacSendTransaction, MoacSendRawTransaction, MoacCall,
    MoacEstimateGas, MoacGetBlockByHash, MoacGetBlockByNumber, getBlock,
    MoacGetTransactionByHash, MoacGetTransactionByBlockHashAndIndex,
    MoacGetTransactionByBlockNumberAndIndex, getTransaction,
    MoacGetTransactionReceipt, MoacGetCompilers, MoacNewFilter,
    MoacNewBlockFilter, MoacNewPendingTransactionFilter, MoacUninstallFilter,
    MoacGetFilterChanges, MoacGetFilterLogs, MoacGetLogs, RawCall;
  cbv zeta.

Section Accessors.

Context {T FilterParams Block Transaction TransactionReceipt Log : Type}.
Context {proxyBlockWithTransactions proxyBlockWithoutTransactions : Type}.
Context {GoValue : Type}.
Context {M_request : Marshaler (@ethRequest T FilterParams GoValue)}.
Context {U_response : Unmarshaler ethResponse}.
Context {U_string : Unmarshaler string}.
Context {U_bool : Unmarshaler bool}.
Context {U_strings : Unmarshaler (option (list string))}.
Context {U_logs : Unmarshaler (option (list Log))}.
Context {U_syncing : Unmarshaler Syncing}.
Context {U_transaction : Unmarshaler Transaction}.
Context {U_receipt : Unmarshaler TransactionReceipt}.
Context {U_blockWith : Unmarshaler proxyBlockWithTransactions}.
Context {U_blockWithout : Unmarshaler proxyBlockWithoutTransactions}.
Context {Z_transaction : Zero Transaction}.
Context {Z_receipt : Zero TransactionReceipt}.
Context {Z_blockWith : Zero proxyBlockWithTransactions}.
Context {Z_blockWithout : Zero proxyBlockWithoutTransactions}.
Context {P_blockWith : ProxyBlock Block proxyBlockWithTransactions}.
Context {P_blockWithout : ProxyBlock Block proxyBlockWithoutTransactions}.

#[local] Abbreviation iface := (@iface T FilterParams GoValue).
#[local] Abbreviation accessor := (@accessor T FilterParams).
#[local] Abbreviation value := (@value Block Transaction TransactionReceipt Log).
#[local] Abbreviation run :=
  (@run T FilterParams Block Transaction TransactionReceipt Log
        proxyBlockWithTransactions proxyBlockWithoutTransactions GoValue
        M_request U_response U_string U_bool U_strings U_logs U_syncing
        U_transaction U_receipt U_blockWith U_blockWithout
        Z_transaction Z_receipt Z_blockWith Z_blockWithout
        P_blockWith P_blockWithout).
#[local] Abbreviation getBlock :=
  (@getBlock T FilterParams Block
             proxyBlockWithTransactions proxyBlockWithoutTransactions GoValue
             M_request U_response U_blockWith U_blockWithout
             Z_blockWith Z_blockWithout P_blockWith P_blockWithout).

(** What [call] returns, from what [Call] returns. *)
Lemma call_outcome {A} `{Unmarshaler A} (rpc : MoacRPC) (method : string)
    (target : option A) (params : list iface) :
  outcome (call rpc method target params) =
  match outcome (Call rpc method params) with
  | None => None
  | Some (_, Some e) => Some (target, Some e)
  | Some (result, None) =>
      match target with
      | None => Some (None, None)
      | Some v =>
          Some (let '(v', err) := json_Unmarshal (bytes_of result) v in
                (Some v', err))
      end
  end.
Proof.
  unfold call. rewrite outcome_bind.
  destruct (outcome (Call rpc method params)) as [[result [e | ]] | ];
    try reflexivity.
  destruct target as [v | ]; [ | reflexivity].
  now destruct (json_Unmarshal (bytes_of result) v).
Qed.

Lemma call_into_outcome {A} `{Unmarshaler A} (rpc : MoacRPC)
    (method : string) (x : A) (params : list iface) :
  outcome (call_into rpc method x params) =
  match outcome (Call rpc method params) with
  | None => None
  | Some (_, Some e) => Some (x, Some e)
  | Some (result, None) => Some (json_Unmarshal (bytes_of result) x)
  end.
Proof.
  unfold call_into. rewrite outcome_bind, call_outcome.
  destruct (outcome (Call rpc method params)) as [[result [e | ]] | ];
    try reflexivity.
  now destruct (json_Unmarshal (bytes_of result) x).
Qed.

(** The outcome of an accessor, brought down to the outcome of its
    dispatch. *)
Ltac accessor_outcome :=
  open_accessor;
  repeat first [ rewrite outcome_bind
               | rewrite call_into_outcome
               | rewrite call_outcome ].

(** What is left of an accessor once the outcome of its dispatch is known. *)
Ltac accessor_tail :=
  repeat match goal with
    | |- context [json_Unmarshal ?d ?x] =>
        let err := fresh "err" in
        destruct (json_Unmarshal d x) as [? [err | ]]
    | |- context [bytes_Equal ?a ?b] => destruct (bytes_Equal a b)
    | |- context [ParseInt ?s] => destruct (ParseInt s)
    | |- context [ParseBigInt ?s] => destruct (ParseBigInt s)
    end;
  cbn [outcome ret snd fst].

(** What an accessor returns depends on the client through the outcome of
    its dispatch only. *)
Lemma run_outcome_ext (rpc rpc' : MoacRPC) (a : accessor) :
  outcome (Call rpc (method_of a) (params_of a))
  = outcome (Call rpc' (method_of a) (params_of a)) ->
  outcome (run rpc a) = outcome (run rpc' a).
Proof.
  intros Hcall.
  destruct a; cbn [method_of params_of] in Hcall; accessor_outcome;
    rewrite Hcall; reflexivity.
Qed.

(** Every accessor is one dispatch: it does to the transport and to the
    logger exactly what [Call] does for its method name and its parameters,
    and it panics exactly when that [Call] does. *)
Theorem accessor_is_one_dispatch (rpc : MoacRPC) (a : accessor) :
  trace (run rpc a) = trace (Call rpc (method_of a) (params_of a))
  /\ (outcome (run rpc a) = None
      <-> outcome (Call rpc (method_of a) (params_of a)) = None).
Proof.
  split; [exact (run_trace rpc a) | ].
  destruct a; cbn [method_of params_of]; accessor_outcome;
    match goal with
    | |- context [outcome (Call ?r ?m ?ps)] =>
        destruct (outcome (Call r m ps)) as [[result [e | ]] | ]
    end;
    accessor_tail; split; (reflexivity || discriminate).
Qed.

(** The debug flag is observation only, for [Call] and for every accessor:
    switching it changes neither what is returned nor what is done to the
    transport. *)
Theorem debug_is_silent (rpc : MoacRPC) (enabled : bool) :
  (forall method params,
      outcome (Call (WithDebug enabled rpc) method params)
      = outcome (Call rpc method params)
      /\ unlogged (trace (Call (WithDebug enabled rpc) method params))
         = unlogged (trace (Call rpc method params)))
  /\
  (forall a,
      outcome (run (WithDebug enabled rpc) a) = outcome (run rpc a)
      /\ unlogged (trace (run (WithDebug enabled rpc) a))
         = unlogged (trace (run rpc a))).
Proof.
  split.
  - intros method params. apply Call_WithDebug.
  - intros a. split.
    + apply run_outcome_ext. apply Call_WithDebug.
    + rewrite !run_trace. apply Call_WithDebug.
Qed.

(** A pointer returned without an error is never nil: the block, the
    transaction, the receipt and the sync status can be dereferenced once
    the error has been found nil. *)
Theorem pointer_not_nil_without_error (rpc : MoacRPC) (a : accessor)
    (v : value) :
  outcome (run rpc a) = Some (v, None) -> is_nil_pointer v = false.
Proof.
  destruct a; accessor_outcome;
    match goal with
    | |- context [outcome (Call ?r ?m ?ps)] =>
        destruct (outcome (Call r m ps)) as [[result [e | ]] | ]
    end;
    accessor_tail; intros Heq; inversion Heq; reflexivity.
Qed.

(** [getBlock] decodes the raw result into the shape its flag asks for, with
    transactions or with their hashes only, and turns that shape into the
    block; when the decoding fails it returns nil and the decoder's
    error. *)
Theorem getBlock_decodes_requested_shape (rpc : MoacRPC) (method : string)
    (params : list iface) (raw : RawMessage) :
  outcome (Call rpc method params) = Some (raw, None) ->
  outcome (getBlock rpc method true params) =
  Some match json_Unmarshal (bytes_of raw)
                            (zero : proxyBlockWithTransactions) with
       | (_, Some e) => (None, Some e)
       | (b, None) => (Some (toBlock b), None)
       end
  /\
  outcome (getBlock rpc method false params) =
  Some match json_Unmarshal (bytes_of raw)
                            (zero : proxyBlockWithoutTransactions) with
       | (_, Some e) => (None, Some e)
       | (b, None) => (Some (toBlock b), None)
       end.
Proof.
  intros Hcall. unfold getBlock. cbv zeta.
  rewrite !outcome_bind, !call_into_outcome, Hcall.
  cbv beta iota delta [json_Unmarshal U_proxyBlock toBlock P_proxyBlock].
  split.
  - destruct (U_blockWith (bytes_of raw) zero) as [b [e | ]]; reflexivity.
  - destruct (U_blockWithout (bytes_of raw) zero) as [b [e | ]]; reflexivity.
Qed.

End Accessors.

(** ** The wire names *)

(** No two accessors share a method name: the name on the wire tells which
    accessor was called. *)
Theorem method_names_distinct {T FilterParams : Type}
    (a b : @accessor T FilterParams) :
  method_of a = method_of b -> accessor_index a = accessor_index b.
Proof.
  destruct a, b; cbn [method_of accessor_index]; intros Heq;
    first [ reflexivity | discriminate Heq ].
Qed.

(** ** The hash parameter *)

Lemma digit_inj (a b : Z) :
  0 <= a < 16 -> 0 <= b < 16 -> Hex.digit a = Hex.digit b -> a = b.
Proof.
  intros Ha Hb Heq.
  assert (Hsome : Some a = Some b).
  { rewrite <- (digit_value_digit a Ha), <- (digit_value_digit b Hb).
    now rewrite Heq. }
  now inversion Hsome.
Qed.

Lemma byte_bounds (c : ascii) : 0 <= Z.of_nat (nat_of_ascii c) < 256.
Proof.
  pose proof (nat_ascii_bounded c). lia.
Qed.

Lemma of_bytes_inj (d1 : string) :
  forall d2, Hex.of_bytes d1 = Hex.of_bytes d2 -> d1 = d2.
Proof.
  induction d1 as [ | c1 d1 IH]; intros [ | c2 d2]; cbn [Hex.of_bytes];
    intros Heq; try discriminate Heq; [reflexivity | ].
  cbv zeta in Heq. injection Heq as Hhigh Hlow Hrest.
  pose proof (byte_bounds c1) as H1. pose proof (byte_bounds c2) as H2.
  apply digit_inj in Hhigh;
    [ | split; [apply Z.div_pos | apply Z.div_lt_upper_bound]; lia
      | split; [apply Z.div_pos | apply Z.div_lt_upper_bound]; lia ].
  apply digit_inj in Hlow;
    [ | apply Z.mod_pos_bound; lia | apply Z.mod_pos_bound; lia ].
  assert (Hbyte : nat_of_ascii c1 = nat_of_ascii c2).
  { apply Nat2Z.inj.
    rewrite (Z.div_mod (Z.of_nat (nat_of_ascii c1)) 16) by lia.
    rewrite (Z.div_mod (Z.of_nat (nat_of_ascii c2)) 16) by lia.
    now rewrite Hhigh, Hlow. }
  f_equal; [ | now apply IH].
  rewrite <- (ascii_nat_embedding c1), <- (ascii_nat_embedding c2).
  now rewrite Hbyte.
Qed.

Lemma of_bytes_length (data : string) :
  String.length (Hex.of_bytes data) = (2 * String.length data)%nat.
Proof.
  induction data as [ | c data IH]; cbn [Hex.of_bytes String.length];
    [reflexivity | ].
  cbv zeta. cbn [String.length]. rewrite IH. lia.
Qed.

Lemma lower_hex_digit (d : Z) :
  0 <= d < 16 -> lower_hex (Hex.digit d) = true.
Proof.
  intros Hd.
  assert (Hcases : d = 0 \/ d = 1 \/ d = 2 \/ d = 3 \/ d = 4 \/ d = 5
                   \/ d = 6 \/ d = 7 \/ d = 8 \/ d = 9 \/ d = 10 \/ d = 11
                   \/ d = 12 \/ d = 13 \/ d = 14 \/ d = 15) by lia.
  repeat (destruct Hcases as [-> | Hcases]; [reflexivity | ]).
  subst d. reflexivity.
Qed.

Lemma high_digit_bounds (c : ascii) :
  0 <= Z.of_nat (nat_of_ascii c) / 16 < 16.
Proof.
  pose proof (byte_bounds c).
  split; [apply Z.div_pos | apply Z.div_lt_upper_bound]; lia.
Qed.

Lemma low_digit_bounds (c : ascii) :
  0 <= Z.of_nat (nat_of_ascii c) mod 16 < 16.
Proof.
  apply Z.mod_pos_bound. lia.
Qed.

Lemma of_bytes_lower_hex (data : string) :
  every lower_hex (Hex.of_bytes data) = true.
Proof.
  induction data as [ | c data IH]; cbn [Hex.of_bytes every];
    [reflexivity | ].
  cbv zeta. cbn [every].
  rewrite (lower_hex_digit _ (high_digit_bounds c)).
  rewrite (lower_hex_digit _ (low_digit_bounds c)).
  exact IH.
Qed.

Lemma unhex_of_bytes (data : string) :
  unhex (Hex.of_bytes data) = Some data.
Proof.
  induction data as [ | c data IH]; cbn [Hex.of_bytes unhex];
    [reflexivity | ].
  cbv zeta. cbn [unhex].
  rewrite (digit_value_digit _ (high_digit_bounds c)).
  rewrite (digit_value_digit _ (low_digit_bounds c)).
  rewrite IH.
  rewrite <- (Z.div_mod (Z.of_nat (nat_of_ascii c)) 16) by lia.
  now rewrite Nat2Z.id, ascii_nat_embedding.
Qed.

(** The one parameter of [Chain3Sha3] is ["0x"] followed by two lowercase
    hex digits for every byte of the data, the high digit first: the digits
    are all among [0123456789abcdef], there are twice as many as bytes, and
    read back in pairs they give the data.  So it tells the data: two byte
    strings that differ are sent as different parameters. *)
Theorem Chain3Sha3_parameter {T FilterParams GoValue : Type} :
  (forall data,
      exists digits,
        @params_of T FilterParams GoValue (AChain3Sha3 data)
        = [IString ("0x" ++ digits)]
        /\ String.length digits = (2 * String.length data)%nat
        /\ every lower_hex digits = true
        /\ unhex digits = Some data)
  /\
  (forall d1 d2,
      @params_of T FilterParams GoValue (AChain3Sha3 d1)
      = params_of (AChain3Sha3 d2) ->
      d1 = d2).
Proof.
  split.
  - intros data. exists (Hex.of_bytes data).
    split; [reflexivity | ].
    split; [apply of_bytes_length | ].
    split; [apply of_bytes_lower_hex | apply unhex_of_bytes].
  - intros d1 d2 Heq. cbn [params_of] in Heq.
    injection Heq as Heq. now apply of_bytes_inj.
Qed.

(** ** The text of an RPC error *)

Lemma to_int_not_nil (n : Z) :
  Z.to_int n <> Decimal.Pos Decimal.Nil
  /\ Z.to_int n <> Decimal.Neg Decimal.Nil.
Proof.
  destruct n as [ | p | p]; cbn [Z.to_int]; split; try discriminate;
    intros Heq; injection Heq as Heq; now apply Unsigned.to_uint_nonnil in Heq.
Qed.

Lemma decimal_inj (a b : Z) : decimal a = decimal b -> a = b.
Proof.
  unfold decimal. intros Heq.
  apply (f_equal NilZero.int_of_string) in Heq.
  destruct (to_int_not_nil a) as [Ha Ha'].
  destruct (to_int_not_nil b) as [Hb Hb'].
  rewrite !NilZero.isi in Heq by assumption.
  injection Heq as Heq.
  rewrite <- (DecimalZ.of_to a), <- (DecimalZ.of_to b). now rewrite Heq.
Qed.

Lemma uint_no_space (d : Decimal.uint) :
  ~ In " "%char (list_ascii_of_string (NilEmpty.string_of_uint d)).
Proof.
  induction d; cbn [NilEmpty.string_of_uint list_ascii_of_string In];
    [ intros []
    | intros [Heq | Hin]; [discriminate Heq | now apply IHd] .. ].
Qed.

Lemma decimal_no_space (n : Z) :
  ~ In " "%char (list_ascii_of_string (decimal n)).
Proof.
  unfold decimal.
  assert (Huint : forall d,
             ~ In " "%char (list_ascii_of_string (NilZero.string_of_uint d))).
  { intros d. destruct d; try apply uint_no_space.
    cbn. intros [Heq | []]. discriminate Heq. }
  destruct (Z.to_int n) as [d | d]; cbn [NilZero.string_of_int].
  - apply Huint.
  - cbn [list_ascii_of_string In]. intros [Heq | Hin];
      [discriminate Heq | now apply (Huint d)].
Qed.

Lemma split_at_space (s1 : string) :
  forall s2 r1 r2,
    ~ In " "%char (list_ascii_of_string s1) ->
    ~ In " "%char (list_ascii_of_string s2) ->
    s1 ++ String " " r1 = s2 ++ String " " r2 ->
    s1 = s2 /\ r1 = r2.
Proof.
  induction s1 as [ | c1 s1 IH]; intros [ | c2 s2] r1 r2 H1 H2 Heq;
    cbn in Heq, H1, H2.
  - injection Heq as Heq. now split.
  - injection Heq as Hc _. exfalso. apply H2. now left.
  - injection Heq as Hc _. exfalso. apply H1. now left.
  - injection Heq as Hc Heq. subst c2.
    destruct (IH s2 r1 r2) as [Hs Hr]; [tauto | tauto | exact Heq | ].
    subst. now split.
Qed.

Lemma append_one_inj (s1 : string) (c : ascii) :
  forall s2,
    s1 ++ String c EmptyString = s2 ++ String c EmptyString -> s1 = s2.
Proof.
  induction s1 as [ | c1 s1 IH]; intros [ | c2 s2] Heq; cbn in Heq.
  - reflexivity.
  - injection Heq as _ Heq. now destruct s2.
  - injection Heq as _ Heq. now destruct s1.
  - injection Heq as Hc Heq. subst. f_equal. now apply IH.
Qed.

(** The text of an RPC error tells its code and its message: two errors
    with the same text are the same error. *)
Theorem MoacError_Error_inj (e1 e2 : MoacError) :
  MoacError_Error e1 = MoacError_Error e2 -> e1 = e2.
Proof.
  destruct e1 as [c1 m1], e2 as [c2 m2]. unfold MoacError_Error.
  cbn [Code Message]. intros Heq.
  cbn [append] in Heq. repeat injection Heq as Heq.
  apply split_at_space in Heq; try apply decimal_no_space.
  destruct Heq as [Hcode Hmsg].
  apply decimal_inj in Hcode. injection Hmsg as Hmsg.
  apply append_one_inj in Hmsg. now subst.
Qed.

(** ** Construction *)

Lemma fold_options_app (options more : list (MoacRPC -> MoacRPC))
    (rpc : MoacRPC) :
  fold_left (fun r option => option r) (options ++ more) rpc
  = fold_left (fun r option => option r) more
              (fold_left (fun r option => option r) options rpc).
Proof.
  apply fold_left_app.
Qed.

Lemma fold_options_url (options : list (MoacRPC -> MoacRPC)) :
  (forall option, In option options ->
                  (exists c, option = WithHttpClient c)
                  \/ (exists enabled, option = WithDebug enabled)) ->
  forall rpc,
    url (fold_left (fun r option => option r) options rpc) = url rpc.
Proof.
  induction options as [ | option options IH]; intros Hstd rpc;
    [reflexivity | ].
  cbn [fold_left]. rewrite IH by (intros o Ho; apply Hstd; now right).
  destruct (Hstd option (or_introl eq_refl)) as [[c ->] | [enabled ->]];
    reflexivity.
Qed.

(** [New] applies its options in order on top of the defaults, so the last
    option of a kind wins and leaves the other fields as the earlier options
    set them; built from [WithHttpClient] and [WithDebug] only, the client
    keeps the URL it was given; without options it has the default
    transport and the debug flag off. *)
Theorem New_applies_options (c : httpClient) (u : string)
    (options : list (MoacRPC -> MoacRPC)) :
  (forall enabled,
      New c u (options ++ [WithDebug enabled])
      = WithDebug enabled (New c u options))
  /\ (forall c',
         New c u (options ++ [WithHttpClient c'])
         = WithHttpClient c' (New c u options))
  /\ (forall enabled c',
         Debug (New c u (options ++ [WithDebug enabled; WithHttpClient c']))
         = enabled
         /\ client (New c u (options ++ [WithHttpClient c'; WithDebug enabled]))
            = c')
  /\ ((forall option, In option options ->
                      (exists c', option = WithHttpClient c')
                      \/ (exists enabled, option = WithDebug enabled)) ->
      url (New c u options) = u)
  /\ New c u [] = mkMoacRPC u c false
  /\ NewMoacRPC c u options = New c u options.
Proof.
  unfold NewMoacRPC, New.
  repeat split; intros; rewrite ?fold_options_app; try reflexivity.
  now rewrite fold_options_url.
Qed.

(** ** Scenarios for the further properties *)

Lemma Call_nil_response_panics_witness :
  Mock.Call (Mock.over Faulty.mute true) "net_version" []
  = ([EvPost Mock.node "application/json" Mock.netVersion_request], None).
Proof.
  unfold Mock.Call. apply Call_nil_response_panics; reflexivity.
Defined.

Lemma Call_error_nil_result_witness :
  outcome (Mock.Call (Mock.over (Mock.replying Mock.body_error) false)
                     "net_version" [])
  = Some (None, Some (RpcError Mock.boom))
  /\ (None : RawMessage) = None.
Proof.
  split; [reflexivity | ].
  exact (Call_error_nil_result
           (M_request := Mock.encode_request)
           (U_response := Mock.decode_response)
           (Mock.over (Mock.replying Mock.body_error) false)
           "net_version" [] None (RpcError Mock.boom) eq_refl).
Defined.

Lemma Call_error_with_response_witness :
  Mock.Call (Mock.over (Faulty.redirecting Mock.body_balance
                                           Faulty.too_many_redirects) true)
            "net_version" []
  = ([EvPost Mock.node "application/json" Mock.netVersion_request; EvClose],
     Some (None, Some Faulty.too_many_redirects)).
Proof.
  unfold Mock.Call.
  eapply Call_error_with_response; reflexivity.
Defined.

Lemma Call_read_error_witness :
  Mock.Call (Mock.over (Faulty.truncated "{" Faulty.unexpected_EOF) true)
            "net_version" []
  = ([EvPost Mock.node "application/json" Mock.netVersion_request;
      EvReadAll; EvClose],
     Some (None, Some Faulty.unexpected_EOF)).
Proof.
  unfold Mock.Call.
  eapply Call_read_error; reflexivity.
Defined.

Lemma Call_envelope_error_witness :
  outcome (Mock.Call (Mock.over (Mock.replying "<html>") true)
                     "net_version" [])
  = Some (None, Some (LibError "invalid character")).
Proof.
  unfold Mock.Call.
  eapply Call_envelope_error; reflexivity.
Defined.

Lemma Call_raw_result_witness :
  outcome (Mock.Call (Mock.over (Mock.replying Mock.body_false) false)
                     "mc_syncing" [])
  = Some (Some "false", None).
Proof.
  unfold Mock.Call.
  eapply (Call_raw_result
            (M_request := Mock.encode_request)
            (U_response := Mock.decode_response)
            (Mock.over (Mock.replying Mock.body_false) false)
            "mc_syncing" []
            (fst (Mock.encode_request (mkReq 1 "2.0" "mc_syncing" [])))
            Mock.body_false
            (mkResp 1 "2.0" (Some "false") None));
    reflexivity.
Defined.

Lemma pointer_not_nil_without_error_witness :
  outcome (Mock.run (Mock.over (Mock.replying Mock.body_syncing) false)
                    AMoacSyncing)
  = Some (VSyncing (Some (mkSyncing true 1 2 3)), None)
  /\ is_nil_pointer (VSyncing (Some (mkSyncing true 1 2 3)) : Mock.value)
     = false.
Proof.
  split; [reflexivity | ].
  exact (pointer_not_nil_without_error
           (M_request := Mock.encode_request)
           (U_response := Mock.decode_response)
           (U_string := Mock.decode_string)
           (U_bool := Mock.decode_bool)
           (U_strings := Mock.decode_opaque)
           (U_logs := Mock.decode_opaque)
           (U_syncing := Mock.decode_syncing)
           (U_transaction := Mock.decode_opaque)
           (U_receipt := Mock.decode_opaque)
           (U_blockWith := Mock.decode_opaque)
           (U_blockWithout := Mock.decode_opaque)
           (Z_transaction := Mock.zero_unit)
           (Z_receipt := Mock.zero_unit)
           (Z_blockWith := Mock.zero_unit)
           (Z_blockWithout := Mock.zero_unit)
           (P_blockWith := Mock.block_of_unit)
           (P_blockWithout := Mock.block_of_unit)
           (Mock.over (Mock.replying Mock.body_syncing) false)
           AMoacSyncing
           (VSyncing (Some (mkSyncing true 1 2 3))) eq_refl).
Defined.

Lemma getBlock_decodes_requested_shape_witness :
  let rpc := Mock.over (Mock.replying Mock.body_balance) false in
  outcome (Faulty.getBlock rpc "mc_getBlockByNumber" true
                           [IString "0x5"; IBool true])
  = Some (None, Some (LibError "not decoded"))
  /\ outcome (Faulty.getBlock rpc "mc_getBlockByNumber" false
                              [IString "0x5"; IBool false])
     = Some (None, Some (LibError "not decoded")).
Proof.
  cbv zeta. unfold Faulty.getBlock. split.
  - exact (proj1 (getBlock_decodes_requested_shape
                    (M_request := Mock.encode_request)
                    (U_response := Mock.decode_response)
                    (U_blockWith := Mock.decode_opaque)
                    (U_blockWithout := Mock.decode_opaque)
                    (Z_blockWith := Mock.zero_unit)
                    (Z_blockWithout := Mock.zero_unit)
                    (P_blockWith := Mock.block_of_unit)
                    (P_blockWithout := Mock.block_of_unit)
                    (Mock.over (Mock.replying Mock.body_balance) false)
                    "mc_getBlockByNumber" [IString "0x5"; IBool true]
                    (Some (Mock.quoted "0xde0b6b3a7640000")) eq_refl)).
  - exact (proj2 (getBlock_decodes_requested_shape
                    (M_request := Mock.encode_request)
                    (U_response := Mock.decode_response)
                    (U_blockWith := Mock.decode_opaque)
                    (U_blockWithout := Mock.decode_opaque)
                    (Z_blockWith := Mock.zero_unit)
                    (Z_blockWithout := Mock.zero_unit)
                    (P_blockWith := Mock.block_of_unit)
                    (P_blockWithout := Mock.block_of_unit)
                    (Mock.over (Mock.replying Mock.body_balance) false)
                    "mc_getBlockByNumber" [IString "0x5"; IBool false]
                    (Some (Mock.quoted "0xde0b6b3a7640000")) eq_refl)).
Defined.

Lemma method_names_distinct_witness :
  accessor_index (AMoacGetBalance "0xabc" "latest" : Mock.accessor)
  = accessor_index (AMoacGetBalance "0xdef" "earliest" : Mock.accessor).
Proof.
  exact (method_names_distinct
           (AMoacGetBalance "0xabc" "latest" : Mock.accessor)
           (AMoacGetBalance "0xdef" "earliest") eq_refl).
Defined.

Lemma MoacError_Error_inj_witness :
  MoacError_Error Mock.boom = "Error -32000 (boom)"
  /\ Mock.boom = mkMoacError (-32000) "boom".
Proof.
  split; [reflexivity | ].
  exact (MoacError_Error_inj Mock.boom (mkMoacError (-32000) "boom") eq_refl).
Defined.

(** The bytes of ["moac"] as [Chain3Sha3] sends them. *)
Example Chain3Sha3_moac :
  params_of (AChain3Sha3 "moac" : Mock.accessor)
  = [IString "0x6d6f6163" : Mock.param].
Proof. reflexivity. Qed.
